(** * staticWebsiteTemplate: the site generator and the deployment scripts

    A shallow embedding of [scripts/generate-site.js] and [scripts/deploy.js].

    - JavaScript strings are [string]: one [ascii] per UTF-16 code unit, so the
      embedding covers the texts whose code units lie in U+0000..U+00FF
      (ASCII and Latin-1, which holds every accented letter the scripts
      write).  Characters outside that range only occur in console output and
      are kept apart as code points ([piece]).
    - JSON data (a client configuration) is [value]; an object is a finite
      map from property names to values.
    - Code that can throw returns a [result]; code that talks to the file
      system, git or the console runs in [IO], a state-and-exception monad
      over the trace of what has been done so far, against an [Env] that
      answers every external call. *)

From Stdlib Require Import Ascii String DecimalString.
From stdpp Require Import gmap strings list fin_maps.

Open Scope string_scope.
Open Scope list_scope.

(* ===================================================================== *)
(** ** JavaScript strings *)
(* ===================================================================== *)

Module JsString.

Definition code (c : ascii) : N := N_of_ascii c.
Definition chr (n : N) : string := String (ascii_of_N n) "".

(** The double quote, which a literal of this file cannot hold. *)
Definition dq : string := chr 34.
(** The line feed. *)
Definition nl : string := chr 10.

(** Source literals of this file are UTF-8; [latin1] reads one back as
    code units: a two-byte sequence led by 0xC2 or 0xC3 is one code unit
    of U+0080..U+00FF. *)
Fixpoint latin1 (s : string) : string :=
  match s with
  | "" => ""
  | String c r =>
      match r with
      | String d r' =>
          if (code c =? 194)%N then String d (latin1 r')
          else if (code c =? 195)%N
               then String (ascii_of_N (code d + 64)) (latin1 r')
               else String c (latin1 r)
      | "" => String c ""
      end
  end.

(** [\s] of a regular expression, and what [trim] strips: TAB, LF, VT, FF,
    CR, SPACE and NO-BREAK SPACE (the members below U+0100). *)
Definition isWhiteSpace (c : ascii) : bool :=
  let n := code c in
  ((9 <=? n) && (n <=? 13) || (n =? 32) || (n =? 160))%N.

(** [String.prototype.toLowerCase] on one code unit: A-Z, and the Latin-1
    capitals U+00C0..U+00DE but for the multiplication sign U+00D7.  (Within
    this range a code unit maps to one code unit; beyond it the method can
    lengthen a text, so nothing below is drawn from lengths.) *)
Definition lowerChar (c : ascii) : ascii :=
  let n := code c in
  if ((65 <=? n) && (n <=? 90)
      || (192 <=? n) && (n <=? 222) && negb (n =? 215))%N
  then ascii_of_N (n + 32) else c.

Fixpoint toLowerCase (s : string) : string :=
  match s with
  | "" => ""
  | String c r => String (lowerChar c) (toLowerCase r)
  end.

(** [s.replace(/\s+/g, '-')]: every maximal run of white space becomes one
    hyphen.  [inRun] tells that the previous code unit was white space. *)
Fixpoint replaceRuns (inRun : bool) (s : string) : string :=
  match s with
  | "" => ""
  | String c r =>
      if isWhiteSpace c
      then if inRun then replaceRuns true r else String "-" (replaceRuns true r)
      else String c (replaceRuns false r)
  end.

Definition replaceWhiteSpace (s : string) : string := replaceRuns false s.

Fixpoint trimStart (s : string) : string :=
  match s with
  | "" => ""
  | String c r => if isWhiteSpace c then trimStart r else s
  end.

Fixpoint trimEnd (s : string) : string :=
  match s with
  | "" => ""
  | String c r =>
      match trimEnd r with
      | "" => if isWhiteSpace c then "" else String c ""
      | r' => String c r'
      end
  end.

Definition trim (s : string) : string := trimEnd (trimStart s).

(** [hay.includes(needle)] *)
Fixpoint includes (needle hay : string) : bool :=
  String.prefix needle hay ||
  match hay with
  | "" => false
  | String _ r => includes needle r
  end.

(** [s.endsWith(suffix)] *)
Definition endsWith (suffix s : string) : bool :=
  let n := String.length s in
  let k := String.length suffix in
  (k <=? n)%nat && String.eqb (String.substring (n - k) k s) suffix.

(** [parts.join(sep)] *)
Fixpoint join (sep : string) (parts : list string) : string :=
  match parts with
  | [] => ""
  | [p] => p
  | p :: rest => p +:+ sep +:+ join sep rest
  end.

(** Every code unit of [s] satisfies [p]. *)
Fixpoint all (p : ascii -> bool) (s : string) : bool :=
  match s with
  | "" => true
  | String c r => p c && all p r
  end.

(** A four-digit year as the decimal text a template literal gives it. *)
Definition ofN (n : N) : string := NilEmpty.string_of_uint (N.to_uint n).

End JsString.

(* ===================================================================== *)
(** ** Values, exceptions and the conversions the scripts rely on *)
(* ===================================================================== *)

(** What a [throw] carries: the engine's own [TypeError], or an error object
    raised by a library call (file system, git, JSON, template engine). *)
Inductive error : Type :=
| TypeError
| Failure (message : string).

Inductive result (A : Type) : Type :=
| Ok (a : A)
| Throw (e : error).
Arguments Ok {A} a.
Arguments Throw {A} e.

#[global] Instance result_ret : MRet result := fun _ a => Ok a.
#[global] Instance result_bind : MBind result := fun _ _ f m =>
  match m with
  | Ok a => f a
  | Throw e => Throw e
  end.

Definition throws {A} (r : result A) : bool :=
  match r with Ok _ => false | Throw _ => true end.

(** A JavaScript value as [JSON.parse] builds it (plus [undefined]).  A
    number is held as the text the engine prints for it, which identifies a
    double up to the sign of zero: equality in a [Set], truthiness and the
    conversion to a string, the three things the scripts do with a number,
    are read off that text. *)
#[warnings="-register-all"]
Inductive value : Type :=
| JUndefined
| JNull
| JBool (b : bool)
| JNum (repr : string)
| JStr (s : string)
| JArr (elements : list value)
| JObj (properties : gmap string value).

Module Js.

(** [ToBoolean]: what [if (v)] tests. *)
Definition truthy (v : value) : bool :=
  match v with
  | JUndefined | JNull => false
  | JBool b => b
  | JNum r => negb (String.eqb r "0" || String.eqb r "NaN")
  | JStr s => negb (String.eqb s "")
  | JArr _ | JObj _ => true
  end.

(** [SameValueZero], the equality of a [Set].  Objects and arrays are
    compared by identity, and two places of a parsed document never hold
    the same object. *)
Definition sameValueZero (a b : value) : bool :=
  match a, b with
  | JUndefined, JUndefined | JNull, JNull => true
  | JBool x, JBool y => bool_decide (x = y)
  | JNum x, JNum y => String.eqb x y
  | JStr x, JStr y => String.eqb x y
  | _, _ => false
  end.

(** [v.key] for a property name that no built-in prototype defines (every
    name the scripts read: [client], [header], [logo], [image], [items],
    ...): a [TypeError] on [undefined] and [null], the own property of an
    object, and [undefined] on anything else. *)
Definition get (v : value) (key : string) : result value :=
  match v with
  | JUndefined | JNull => Throw TypeError
  | JObj o => Ok (default JUndefined (o !! key))
  | _ => Ok JUndefined
  end.

(** [ToString], as a template literal applies it.  An array joins its
    elements with commas, [null] and [undefined] elements as empty; a
    plain object prints as [[object Object]] unless it has a property
    [toString] of its own, which parsed JSON can only fill with something
    that is not a function: the conversion then throws. *)
Fixpoint toString (v : value) : result string :=
  match v with
  | JUndefined => Ok "undefined"
  | JNull => Ok "null"
  | JBool true => Ok "true"
  | JBool false => Ok "false"
  | JNum r => Ok r
  | JStr s => Ok s
  | JArr xs =>
      (fix elems (xs : list value) : result (list string) :=
         match xs with
         | [] => Ok []
         | x :: rest =>
             match (match x with
                    | JUndefined | JNull => Ok ""
                    | _ => toString x
                    end) with
             | Throw e => Throw e
             | Ok s => match elems rest with
                       | Throw e => Throw e
                       | Ok ss => Ok (s :: ss)
                       end
             end
         end) xs ≫= fun ss => Ok (JsString.join "," ss)
  | JObj o =>
      match o !! "toString" with
      | Some _ => Throw TypeError
      | None => Ok "[object Object]"
      end
  end.

(** An object literal: later properties replace earlier ones of the same
    name. *)
Definition obj (props : list (string * value)) : gmap string value :=
  fold_left (fun o kv => <[kv.1 := kv.2]> o) props ∅.

(** [{...o, ...v}]: the own properties of [v] laid over [o].  Spreading
    [undefined], [null], a number or a boolean adds nothing; a string adds
    its code units and an array its elements under their indices. *)
Definition indexed (vs : list value) : gmap string value :=
  list_to_map (imap (fun i v => (JsString.ofN (N.of_nat i), v)) vs).

Definition spread (o : gmap string value) (v : value) : gmap string value :=
  match v with
  | JObj p => p ∪ o
  | JArr xs => indexed xs ∪ o
  | JStr s => indexed ((fun c => JStr (String c "")) <$> list_ascii_of_string s) ∪ o
  | _ => o
  end.

End Js.

(* ===================================================================== *)
(** ** The world outside: console, file system, git *)
(* ===================================================================== *)

(** Console text: Latin-1 text, or one character beyond it (the pictographs
    that open most messages) by its code point. *)
Inductive piece : Type :=
| Text (s : string)
| Glyph (codepoint : N).

Inductive color : Type := Blue | Green | Yellow | Red.

(** One argument of [console.log] or [console.error]. *)
Inductive arg : Type :=
| Plain (text : list piece)
| Chalk (c : color) (text : list piece)
| Object (e : error).

Inductive stream : Type := Stdout | Stderr.

(** The calls that leave the process. *)
Inductive call : Type :=
| ReadFile (path : string)
| WriteFile (path content : string)
| MkdirRecursive (path : string)
| CopyFile (source target : string)
| Readdir (path : string)
| Stat (path : string)
| Access (path : string)
| SimpleGit (baseDir : string)
| GitInit (baseDir : string)
| GitAdd (baseDir files : string)
| GitCommit (baseDir message : string).

Inductive event : Type :=
| Called (c : call)
| Console (s : stream) (args : list arg).

Definition trace : Type := list event.

(** Everything the scripts do not decide themselves.  An answer may depend
    on all that happened before ([trace]), so an environment can make any
    call fail at any time. *)
Record Env : Type := {
  dirname : string;                                (* __dirname *)
  path_join : string -> string -> string;          (* path.join *)
  perform : trace -> call -> result unit;            (* calls made for their effect *)
  readFile : trace -> string -> result string;       (* fs.readFile(p, 'utf8') *)
  readdir : trace -> string -> result (list string); (* fs.readdir *)
  isDirectory : trace -> string -> result bool;      (* fs.stat(p), then isDirectory() *)
  toISOString : trace -> string;                    (* new Date().toISOString() *)
  JSON_parse : string -> result value;              (* JSON.parse *)
  handlebars : string -> value -> result string     (* handlebars.compile(t)(config) *)
}.

Definition IO (A : Type) : Type := Env -> trace -> result A * trace.

#[global] Instance IO_ret : MRet IO := fun _ a _ t => (Ok a, t).
#[global] Instance IO_bind : MBind IO := fun _ _ f m env t =>
  match m env t with
  | (Ok a, t') => f a env t'
  | (Throw e, t') => (Throw e, t')
  end.

Module Io.

Definition throw {A} (e : error) : IO A := fun _ t => (Throw e, t).

(** A computation that touches nothing outside. *)
Definition pure {A} (r : result A) : IO A := fun _ t => (r, t).

Definition ask {A} (f : Env -> A) : IO A := fun env t => (Ok (f env), t).

(** [try { m } catch (error) { handler(error) }] *)
Definition try_catch {A} (m : IO A) (handler : error -> IO A) : IO A :=
  fun env t =>
    match m env t with
    | (Throw e, t') => handler e env t'
    | done => done
    end.

(** [for (const x of xs) { await body(x) }] *)
Fixpoint for_of {A} (xs : list A) (body : A -> IO unit) : IO unit :=
  match xs with
  | [] => mret tt
  | x :: rest => body x ≫= fun _ => for_of rest body
  end.

Definition do (c : call) : IO unit :=
  fun env t => (perform env t c, t ++ [Called c]).

Definition fs_readFile (path : string) : IO string :=
  fun env t => (readFile env t path, t ++ [Called (ReadFile path)]).

Definition fs_readdir (path : string) : IO (list string) :=
  fun env t => (readdir env t path, t ++ [Called (Readdir path)]).

Definition fs_stat_isDirectory (path : string) : IO bool :=
  fun env t => (isDirectory env t path, t ++ [Called (Stat path)]).

Definition now : IO string := fun env t => (Ok (toISOString env t), t).

Definition console_log (args : list arg) : IO unit :=
  fun _ t => (Ok tt, t ++ [Console Stdout args]).

Definition console_error (args : list arg) : IO unit :=
  fun _ t => (Ok tt, t ++ [Console Stderr args]).

(** [path.join(a, b)] where [b] is read from data: anything but a string
    is refused with a [TypeError]. *)
Definition join_value (a : string) (b : value) : IO string :=
  fun env t =>
    match b with
    | JStr s => (Ok (path_join env a s), t)
    | _ => (Throw TypeError, t)
    end.

End Io.

(* ===================================================================== *)
(** ** scripts/generate-site.js *)
(* ===================================================================== *)

Module Handlebars.

(** The [options] a block helper receives: the two branches of the block. *)
Record options (A : Type) : Type := { fn : value -> A; inverse : value -> A }.
Arguments fn {A} _ _.
Arguments inverse {A} _ _.

(** [handlebars.registerHelper('if', function(conditional, options) ...)] *)
Definition if_helper {A} (this conditional : value) (o : options A) : A :=
  if Js.truthy conditional then fn o this else inverse o this.

End Handlebars.

Module SiteGenerator.

Import JsString.

Definition templatesDir (env : Env) : string := path_join env (dirname env) "../templates".
Definition clientsDir (env : Env) : string := path_join env (dirname env) "../clients".
Definition outputDir (env : Env) : string := path_join env (dirname env) "../output".

(** [assets.add(v)] on a [Set] kept in insertion order. *)
Definition Set_add (assets : list value) (v : value) : list value :=
  if existsb (Js.sameValueZero v) assets then assets else assets ++ [v].

(** [if (v) assets.add(v)] *)
Definition add_if_truthy (assets : list value) (v : value) : list value :=
  if Js.truthy v then Set_add assets v else assets.

(** [xs.forEach(...)]: only an array has the method. *)
Definition forEach_target (v : value) : result (list value) :=
  match v with
  | JArr xs => Ok xs
  | _ => Throw TypeError
  end.

Fixpoint forEach {S} (step : S -> value -> result S) (s : S) (xs : list value) : result S :=
  match xs with
  | [] => Ok s
  | x :: rest => step s x ≫= fun s' => forEach step s' rest
  end.

Definition scanItem (assets : list value) (item : value) : result (list value) :=
  image ← Js.get item "image";
  Ok (add_if_truthy assets image).

Definition scanSection (assets : list value) (section : value) : result (list value) :=
  image ← Js.get section "image";
  let assets := add_if_truthy assets image in
  items ← Js.get section "items";
  if Js.truthy items
  then forEach_target items ≫= forEach scanItem assets
  else Ok assets.

(** The [Set] that [generateAssetsList] fills, in insertion order. *)
Definition collectAssets (config : value) : result (list value) :=
  header ← Js.get config "header";
  logo ← Js.get header "logo";
  let assets := add_if_truthy [] logo in
  hero ← Js.get config "hero";
  backgroundImage ← Js.get hero "backgroundImage";
  let assets := add_if_truthy assets backgroundImage in
  sections ← Js.get config "sections";
  forEach_target sections ≫= forEach scanSection assets.

Definition assetLine (asset : value) : result string :=
  s ← Js.toString asset; Ok ("- " +:+ s).

Definition generateAssetsList (config : value) : result string :=
  assets ← collectAssets config;
  lines ← mapM assetLine assets;
  Ok (join nl lines).

Definition loadConfig (configPath : string) : IO value :=
  configFile ← Io.fs_readFile configPath;
  parse ← Io.ask JSON_parse;
  Io.pure (parse configFile).

Definition generateHTML (config : value) (outputDir : string) : IO unit :=
  templatePath ← Io.ask (fun env => path_join env (templatesDir env) "index.html");
  templateContent ← Io.fs_readFile templatePath;
  template ← Io.ask handlebars;
  generatedHTML ← Io.pure (template templateContent config);
  htmlPath ← Io.ask (fun env => path_join env outputDir "index.html");
  Io.do (WriteFile htmlPath generatedHTML);;
  Io.console_log [Plain [Glyph 0x1F4C4; Text (latin1 " HTML généré: index.html")]].

Definition copyAssets (outputDir : string) : IO unit :=
  cssSource ← Io.ask (fun env => path_join env (templatesDir env) "styles.css");
  cssTarget ← Io.ask (fun env => path_join env outputDir "styles.css");
  Io.do (CopyFile cssSource cssTarget);;
  Io.console_log [Plain [Glyph 0x1F3A8; Text (latin1 " CSS copié: styles.css")]];;
  assetsDir ← Io.ask (fun env => path_join env outputDir "assets");
  Io.do (MkdirRecursive assetsDir);;
  Io.console_log [Plain [Glyph 0x1F4C1; Text (latin1 " Dossier assets créé")]].

Definition redirectsContent : string := "/*    /index.html   200".

Definition quoted (s : string) : string := dq +:+ s +:+ dq.

Definition netlifyConfig : string :=
  join nl [
    "[build]";
    "  publish = " +:+ quoted ".";
    "  ";
    "[build.environment]";
    "  NODE_VERSION = " +:+ quoted "18";
    "";
    "[[headers]]";
    "  for = " +:+ quoted "/*";
    "  [headers.values]";
    "    X-Frame-Options = " +:+ quoted "DENY";
    "    X-XSS-Protection = " +:+ quoted "1; mode=block";
    "    X-Content-Type-Options = " +:+ quoted "nosniff";
    "";
    "[[headers]]";
    "  for = " +:+ quoted "/assets/*";
    "  [headers.values]";
    "    cache-control = " +:+ quoted "public, max-age=31536000"
  ].

(** [`${config.a.b}`] *)
Definition interpolate2 (config : value) (a b : string) : result string :=
  x ← Js.get config a; y ← Js.get x b; Js.toString y.

Definition readmeContent (config : value) : result string :=
  name ← interpolate2 config "client" "name";
  assetsList ← generateAssetsList config;
  name' ← interpolate2 config "client" "name";
  slug ← interpolate2 config "client" "slug";
  primaryColor ← interpolate2 config "theme" "primaryColor";
  email ← interpolate2 config "contact" "email";
  Ok (join nl [
    "# " +:+ name;
    "";
    latin1 "Site web généré automatiquement.";
    "";
    latin1 "## Déploiement Netlify";
    "";
    latin1 "1. Connecter ce dossier à un repository Git";
    latin1 "2. Connecter le repository à Netlify";
    latin1 "3. Le site sera automatiquement déployé";
    "";
    "## Assets requis";
    "";
    "Placez les images suivantes dans le dossier `assets/`:";
    "";
    assetsList;
    "";
    "## Configuration";
    "";
    latin1 "Ce site a été généré à partir de la configuration:";
    "- Nom: " +:+ name';
    "- Slug: " +:+ slug;
    "- Couleur primaire: " +:+ primaryColor;
    "- Email de contact: " +:+ email;
    "";
    latin1 "Pour modifier le site, éditez la configuration JSON et relancez la génération.";
    ""
  ]).

Definition setupProjectFiles (config : value) (outputDir : string) : IO unit :=
  redirects ← Io.ask (fun env => path_join env outputDir "_redirects");
  Io.do (WriteFile redirects redirectsContent);;
  toml ← Io.ask (fun env => path_join env outputDir "netlify.toml");
  Io.do (WriteFile toml netlifyConfig);;
  content ← Io.pure (readmeContent config);
  readme ← Io.ask (fun env => path_join env outputDir "README.md");
  Io.do (WriteFile readme content);;
  Io.console_log [Plain [Glyph 0x1F4DD; Text (latin1 " README.md créé")]].

Definition generateSite (configPath : string) : IO string :=
  Io.try_catch
    (Io.console_log
       [Plain [Glyph 0x1F680; Text (latin1 " Génération du site pour: "); Text configPath]];;
     config ← loadConfig configPath;
     name ← Io.pure (interpolate2 config "client" "name");
     Io.console_log
       [Plain [Glyph 0x1F4CB; Text (latin1 " Configuration chargée pour: "); Text name]];;
     slug ← Io.pure (Js.get config "client" ≫= fun c => Js.get c "slug");
     out ← Io.ask outputDir;
     siteOutputDir ← Io.join_value out slug;
     Io.do (MkdirRecursive siteOutputDir);;
     generateHTML config siteOutputDir;;
     copyAssets siteOutputDir;;
     setupProjectFiles config siteOutputDir;;
     Io.console_log
       [Plain [Glyph 0x2705; Text (latin1 " Site généré avec succès dans: "); Text siteOutputDir]];;
     Io.console_log
       [Plain [Glyph 0x1F310; Text (latin1 " Prêt à déployer sur Netlify!")]];;
     mret siteOutputDir)
    (fun error =>
       Io.console_error
         [Plain [Glyph 0x274C; Text (latin1 " Erreur lors de la génération:")]; Object error];;
       Io.throw error).

(** The body of the loop of [generateAllSites]. *)
Definition generateEntry (configFile : string) : IO unit :=
  configPath ← Io.ask (fun env => path_join env (clientsDir env) configFile);
  generateSite configPath;; mret tt.

(** [configFiles.filter(file => file.endsWith('.json'))] *)
Definition jsonFiles (configFiles : list string) : list string :=
  filter (fun file => endsWith ".json" file = true) configFiles.

Definition generateAllSites : IO unit :=
  Io.try_catch
    (dir ← Io.ask clientsDir;
     configFiles ← Io.fs_readdir dir;
     Io.console_log
       [Plain [Glyph 0x1F504; Text (latin1 " Génération de ");
               Text (ofN (N.of_nat (length (jsonFiles configFiles)))); Text " sites..."]];;
     Io.for_of (jsonFiles configFiles) generateEntry;;
     Io.console_log
       [Plain [Glyph 0x1F389; Text (latin1 " Tous les sites ont été générés avec succès!")]])
    (fun error =>
       Io.console_error
         [Plain [Glyph 0x274C; Text (latin1 " Erreur lors de la génération globale:")];
          Object error]).

End SiteGenerator.

(* ===================================================================== *)
(** ** scripts/deploy.js *)
(* ===================================================================== *)

Module DeploymentManager.

Import JsString.

Definition outputDir (env : Env) : string := path_join env (dirname env) "../output".

Definition gitignoreContent : string :=
  join nl ["node_modules/"; "*.log"; ".DS_Store"; ".env"; "dist/"; "tmp/"].

Definition initializeGit (siteDir : string) : IO unit :=
  Io.do (SimpleGit siteDir);;
  Io.do (GitInit siteDir);;
  ignore ← Io.ask (fun env => path_join env siteDir ".gitignore");
  Io.do (WriteFile ignore gitignoreContent);;
  Io.console_log [Chalk Green [Glyph 0x1F4DD; Text (latin1 " Git initialisé")]].

(** [fs.access(gitDir).then(() => true).catch(() => false)] *)
Definition hasGit (gitDir : string) : IO bool :=
  Io.try_catch (Io.do (Access gitDir);; mret true) (fun _ => mret false).

Definition deployToNetlify (siteDir siteName : string) : IO bool :=
  Io.try_catch
    (Io.console_log
       [Chalk Blue [Glyph 0x1F680; Text (latin1 " Déploiement de "); Text siteName; Text "..."]];;
     gitDir ← Io.ask (fun env => path_join env siteDir ".git");
     versioned ← hasGit gitDir;
     (if negb versioned then initializeGit siteDir else mret tt);;
     Io.do (SimpleGit siteDir);;
     Io.do (GitAdd siteDir ".");;
     stamp ← Io.now;
     Io.do (GitCommit siteDir ("Deploy " +:+ siteName +:+ " - " +:+ stamp));;
     Io.console_log [Chalk Green [Glyph 0x2705; Text (latin1 " Site prêt pour Netlify!")]];;
     Io.console_log
       [Chalk Yellow [Text nl; Glyph 0x1F4CB; Text (latin1 " Instructions de déploiement:")]];;
     Io.console_log [Plain [Text (latin1 "1. Créer un repository Git pour: "); Text siteDir]];;
     Io.console_log [Plain [Text "2. Push le code vers GitHub/GitLab"]];;
     Io.console_log [Plain [Text (latin1 "3. Connecter le repository à Netlify")]];;
     Io.console_log
       [Plain [Text (latin1 "4. Netlify détectera automatiquement la configuration")]];;
     mret true)
    (fun error =>
       Io.console_error
         [Chalk Red [Glyph 0x274C; Text (latin1 " Erreur de déploiement:")]; Object error];;
       mret false).

(** The body of the loop of [deployAll]. *)
Definition deployEntry (site : string) : IO unit :=
  siteDir ← Io.ask (fun env => path_join env (outputDir env) site);
  directory ← Io.fs_stat_isDirectory siteDir;
  if directory : bool
  then deployToNetlify siteDir site;; mret tt
  else mret tt.

Definition deployAll : IO unit :=
  dir ← Io.ask outputDir;
  sites ← Io.fs_readdir dir;
  Io.for_of sites deployEntry.

End DeploymentManager.

Module CreateClient.

Import JsString.

(** The choices of the [siteType] question. *)
Inductive siteType : Type := Restaurant | Portfolio | Business | Ecommerce | Blog.

Definition choice_value (c : siteType) : string :=
  match c with
  | Restaurant => "restaurant"
  | Portfolio => "portfolio"
  | Business => "business"
  | Ecommerce => "ecommerce"
  | Blog => "blog"
  end.

(** What the operator enters at the prompts; an empty entry takes the
    question's default. *)
Record entries : Type := {
  enteredName : string;
  enteredSlug : string;
  enteredTitle : string;
  enteredDescription : string;
  enteredPrimaryColor : string;
  enteredSecondaryColor : string;
  chosenType : siteType
}.

(** The answer set [generateConfigByType] reads; [None] is a property the
    object does not have. *)
Record answers : Type := {
  clientName : option string;
  clientSlug : option string;
  title : option string;
  description : option string;
  primaryColor : option string;
  secondaryColor : option string;
  siteType_ : option string
}.

(** [validate: input => input.trim() !== ''] *)
Definition validate (input : string) : bool := negb (String.eqb (trim input) "").

(** [default: answers => answers.clientName.toLowerCase().replace(/\s+/g, '-')] *)
Definition defaultSlug (name : string) : string := replaceWhiteSpace (toLowerCase name).

Definition or_default (entered fallback : string) : string :=
  if String.eqb entered "" then fallback else entered.

(** [inquirer.prompt([...])]: the answers once every question is settled;
    [None] while the name is refused by [validate]. *)
Definition prompt (e : entries) : option answers :=
  if validate (enteredName e)
  then Some {|
    clientName := Some (enteredName e);
    clientSlug := Some (or_default (enteredSlug e) (defaultSlug (enteredName e)));
    title := Some (or_default (enteredTitle e) (enteredName e));
    description := Some (enteredDescription e);
    primaryColor := Some (or_default (enteredPrimaryColor e) "#3498db");
    secondaryColor := Some (or_default (enteredSecondaryColor e) "#2c3e50");
    siteType_ := Some (choice_value (chosenType e))
  |}
  else None.

(** [answers.x] as a value, and inside a template literal. *)
Definition field (x : option string) : value :=
  match x with Some s => JStr s | None => JUndefined end.
Definition interpolate (x : option string) : string :=
  match x with Some s => s | None => "undefined" end.

Definition str (s : string) : value := JStr (latin1 s).
Definition object (props : list (string * value)) : value := JObj (Js.obj props).
Definition link (label href : string) : value :=
  object [("label", str label); ("href", str href)].

Definition baseConfig (a : answers) : gmap string value :=
  Js.obj [
    ("client", object [
       ("name", field (clientName a));
       ("slug", field (clientSlug a));
       ("domain", JStr (interpolate (clientSlug a) +:+ ".netlify.app"))]);
    ("seo", object [
       ("title", field (title a));
       ("description", field (description a));
       ("keywords", str "");
       ("favicon", str "/assets/favicon.ico")]);
    ("theme", object [
       ("primaryColor", field (primaryColor a));
       ("secondaryColor", field (secondaryColor a));
       ("accentColor", str "#e74c3c");
       ("backgroundColor", str "#ffffff");
       ("textColor", str "#333333");
       ("fontFamily", str "'Inter', sans-serif");
       ("borderRadius", str "8px")])
  ].

Definition templates (a : answers) : gmap string value :=
  Js.obj [
    ("restaurant", object [
       ("header", object [
          ("logo", str "/assets/logo.png");
          ("navigation", JArr [
             link "Accueil" "#home";
             link "Menu" "#menu";
             link "À propos" "#about";
             link "Contact" "#contact"])]);
       ("hero", object [
          ("title", JStr (latin1 "Bienvenue chez " +:+ interpolate (clientName a)));
          ("subtitle", str "Une expérience culinaire unique");
          ("backgroundImage", str "/assets/hero-bg.jpg");
          ("ctaButton", object [
             ("text", str "Réserver une table");
             ("href", str "#contact");
             ("style", str "primary")])]);
       ("sections", JArr [
          object [
            ("id", str "about");
            ("type", str "text-image");
            ("title", str "Notre Histoire");
            ("content", str "Découvrez notre passion pour la cuisine...");
            ("image", str "/assets/about.jpg");
            ("layout", str "image-right")]])]);
    ("business", object [
       ("header", object [
          ("logo", str "/assets/logo.png");
          ("navigation", JArr [
             link "Accueil" "#home";
             link "Services" "#services";
             link "À propos" "#about";
             link "Contact" "#contact"])]);
       ("hero", object [
          ("title", field (clientName a));
          ("subtitle", str "Votre partenaire de confiance");
          ("backgroundImage", str "/assets/hero-bg.jpg");
          ("ctaButton", object [
             ("text", str "Nos services");
             ("href", str "#services");
             ("style", str "primary")])])])
  ].

Definition contact (a : answers) : value :=
  object [
    ("title", str "Nous Contacter");
    ("address", object [
       ("street", str "Adresse à compléter");
       ("city", str "Ville");
       ("country", str "France")]);
    ("phone", str "+33 X XX XX XX XX");
    ("email", JStr ("contact@" +:+ interpolate (clientSlug a) +:+ ".com"));
    ("socialMedia", JArr [])].

Definition footer (a : answers) : value :=
  object [
    ("copyright",
     JStr (latin1 "© 2024 " +:+ interpolate (clientName a) +:+ latin1 ". Tous droits réservés."));
    ("links", JArr [])].

(** [{...baseConfig, ...template, contact: ..., footer: ...}] for whatever
    is spread in second place. *)
Definition assemble (a : answers) (template : value) : value :=
  JObj (<["footer" := footer a]>
        (<["contact" := contact a]> (Js.spread (baseConfig a) template))).

(** [templates[answers.siteType]]: the registered template, or [undefined].
    (A name that [templates] only inherits, such as [constructor], yields a
    built-in without enumerable properties of its own: spread, it adds
    nothing, as [undefined] does.) *)
Definition template_of (a : answers) : value :=
  default JUndefined (templates a !! interpolate (siteType_ a)).

Definition generateConfigByType (a : answers) : value :=
  assemble a (template_of a).

(** From the entries at the prompts to the configuration. *)
Definition synthesize (e : entries) : option value :=
  generateConfigByType <$> prompt e.

End CreateClient.

(* ===================================================================== *)
(** ** What the properties below speak about *)
(* ===================================================================== *)

Module Config.

Import JsString.

(** [config.a.b] *)
Definition at2 (config : value) (a b : string) : result value :=
  x ← Js.get config a; Js.get x b.

Definition slug (config : value) : result value := at2 config "client" "slug".
Definition email (config : value) : result value := at2 config "contact" "email".
Definition copyright (config : value) : result value := at2 config "footer" "copyright".

Definition lowercase (s : string) : Prop := toLowerCase s = s.
Definition whitespace_free (s : string) : Prop :=
  all (fun c => negb (isWhiteSpace c)) s = true.

(** The year of the clock, as [new Date().getFullYear()] would print it:
    the first four characters of the ISO time stamp. *)
Definition current_year (env : Env) (t : trace) : string :=
  String.substring 0 4 (toISOString env t).

(** Whether a string value holds [needle]. *)
Definition mentions (needle : string) (v : result value) : bool :=
  match v with
  | Ok (JStr s) => includes needle s
  | _ => false
  end.

End Config.

Module Assets.




(** A value whose properties can be read. *)
Definition present (v : value) : bool :=
  match v with
  | JUndefined | JNull => false
  | _ => true
  end.

Definition items_scannable (items : value) : bool :=
  if Js.truthy items
  then match items with
       | JArr xs => forallb present xs
       | _ => false
       end
  else true.

Definition section_scannable (section : value) : bool :=
  match Js.get section "items" with
  | Ok items => items_scannable items
  | Throw _ => false
  end.

Definition has (config : value) (key : string) : bool :=
  match Js.get config key with
  | Ok v => present v
  | Throw _ => false
  end.

(** The configurations on which the scan runs to its end: [header] and
    [hero] are there, [sections] is an array of objects, and what a section
    has as [items] is an array of objects (or is falsy). *)
Definition scannable (config : value) : bool :=
  has config "header" && has config "hero" &&
  match Js.get config "sections" with
  | Ok (JArr sections) => forallb section_scannable sections
  | _ => false
  end.

End Assets.

Module Log.

Import JsString.

(** The line that opens [generateSite(configPath)]. *)
Definition generation_line (configPath : string) : event :=
  Console Stdout
    [Plain [Glyph 0x1F680; Text (latin1 " Génération du site pour: "); Text configPath]].

(** The line that opens [deployToNetlify(siteDir, siteName)]. *)
Definition deployment_line (siteName : string) : event :=
  Console Stdout
    [Chalk Blue [Glyph 0x1F680; Text (latin1 " Déploiement de "); Text siteName; Text "..."]].

(** What the three [catch] blocks print. *)
Definition generation_error_line (e : error) : event :=
  Console Stderr
    [Plain [Glyph 0x274C; Text (latin1 " Erreur lors de la génération:")]; Object e].
Definition batch_error_line (e : error) : event :=
  Console Stderr
    [Plain [Glyph 0x274C; Text (latin1 " Erreur lors de la génération globale:")]; Object e].
Definition deployment_error_line (e : error) : event :=
  Console Stderr
    [Chalk Red [Glyph 0x274C; Text (latin1 " Erreur de déploiement:")]; Object e].

(** The line that opens a batch of [n] configurations. *)
Definition batch_line (n : nat) : event :=
  Console Stdout
    [Plain [Glyph 0x1F504; Text (latin1 " Génération de ");
            Text (ofN (N.of_nat n)); Text " sites..."]].

(** The line that closes a batch in which every site was generated. *)
Definition batch_done_line : event :=
  Console Stdout
    [Plain [Glyph 0x1F389; Text (latin1 " Tous les sites ont été générés avec succès!")]].

(** The configuration a line announces the generation of, if it is such a
    line. *)
Definition generation_of (ev : event) : option string :=
  match ev with
  | Console Stdout [Plain [Glyph g; Text intro; Text configPath]] =>
      if (g =? 0x1F680)%N && String.eqb intro (latin1 " Génération du site pour: ")
      then Some configPath else None
  | _ => None
  end.

(** The site a line announces the deployment of. *)
Definition deployment_of (ev : event) : option string :=
  match ev with
  | Console Stdout [Chalk Blue [Glyph g; Text intro; Text siteName; Text "..."]] =>
      if (g =? 0x1F680)%N && String.eqb intro (latin1 " Déploiement de ")
      then Some siteName else None
  | _ => None
  end.

(** The generations and the deployments a trace shows to have been
    started, in order. *)
Definition generations (t : trace) : list string := omap generation_of t.
Definition deployments (t : trace) : list string := omap deployment_of t.

Definition called (ev : event) : option call :=
  match ev with Called c => Some c | Console _ _ => None end.
Definition calls (t : trace) : list call := omap called t.

Definition on_stderr (ev : event) : bool :=
  match ev with Console Stderr _ => true | _ => false end.
Definition stderr (t : trace) : trace := List.filter on_stderr t.

(** Calls that set a repository up: [git init] and any file written. *)
Definition sets_up (c : call) : bool :=
  match c with GitInit _ | WriteFile _ _ => true | _ => false end.
Definition stages (c : call) : bool :=
  match c with GitAdd _ "." => true | _ => false end.
Definition commits (c : call) : bool :=
  match c with GitCommit _ _ => true | _ => false end.

(** The git calls a deployment makes on an already versioned site. *)
Definition git_work (siteDir : string) (c : call) : bool :=
  match c with
  | SimpleGit d | GitAdd d _ | GitCommit d _ => String.eqb d siteDir
  | _ => false
  end.

(** The errors the environment answered the calls of [new] with, made
    after [t]; the probe for [.git] is left out, whose failure only tells
    that the site is not versioned yet. *)
Fixpoint failures (env : Env) (t : trace) (new : list event) : list error :=
  match new with
  | [] => []
  | ev :: rest =>
      match ev with
      | Called (Access _) => []
      | Called c => match perform env t c with Throw e => [e] | Ok _ => [] end
      | Console _ _ => []
      end ++ failures env (t ++ [ev]) rest
  end.

(** The Latin-1 text of a console line. *)
Definition piece_text (p : piece) : string :=
  match p with Text s => s | Glyph _ => "" end.
Definition error_text (e : error) : string :=
  match e with TypeError => "TypeError" | Failure message => message end.
Definition arg_text (a : arg) : string :=
  match a with
  | Plain ps | Chalk _ ps => String.concat "" (piece_text <$> ps)
  | Object e => error_text e
  end.
Definition line_text (ev : event) : string :=
  match ev with
  | Console _ args => String.concat " " (arg_text <$> args)
  | Called _ => ""
  end.

End Log.

Module Batch.

(** Where the configuration files of a batch are read from. *)
Definition config_paths (env : Env) (configFiles : list string) : list string :=
  path_join env (SiteGenerator.clientsDir env) <$> configFiles.

(** [deployToNetlify] called [n] times in a row on one site. *)
Fixpoint redeploy (n : nat) (siteDir siteName : string) : IO (list bool) :=
  match n with
  | O => mret []
  | S n =>
      ok ← DeploymentManager.deployToNetlify siteDir siteName;
      oks ← redeploy n siteDir siteName;
      mret (ok :: oks)
  end.

(** What one entry of the output directory adds to the trace: the [stat]
    call and, for a directory, a deployment of that site; for anything
    else, nothing more. *)
Definition entry_events (env : Env) (isDir : string -> bool) (site : string)
           (chunk : list event) : Prop :=
  let siteDir := path_join env (DeploymentManager.outputDir env) site in
  if isDir site
  then exists rest, chunk = Called (Stat siteDir) :: Log.deployment_line site :: rest /\
                    Log.deployments rest = []
  else chunk = [Called (Stat siteDir)].

End Batch.

(* ===================================================================== *)
(** ** Concrete inputs *)
(* ===================================================================== *)

Module Examples.

Import CreateClient.

(** An operator who accepts every default. *)
Definition marie : entries := {|
  enteredName := "Chez  Marie";
  enteredSlug := "";
  enteredTitle := "";
  enteredDescription := "";
  enteredPrimaryColor := "";
  enteredSecondaryColor := "";
  chosenType := Restaurant
|}.

(** An operator who types a slug of their own. *)
Definition overridden : entries := {|
  enteredName := "Acme Corp";
  enteredSlug := "My Site";
  enteredTitle := "";
  enteredDescription := "";
  enteredPrimaryColor := "";
  enteredSecondaryColor := "";
  chosenType := Business
|}.

(** The answer set [{clientName: "Acme", siteType: "unknown"}]. *)
Definition acme : answers := {|
  clientName := Some "Acme";
  clientSlug := None;
  title := None;
  description := None;
  primaryColor := None;
  secondaryColor := None;
  siteType_ := Some "unknown"
|}.

(** A world where every call succeeds, on 15 June 2025. *)
Definition calm : Env := {|
  dirname := "/app/scripts";
  path_join a b := a +:+ "/" +:+ b;
  perform _ _ := Ok tt;
  readFile _ _ := Ok "";
  readdir _ _ := Ok [];
  isDirectory _ _ := Ok true;
  toISOString _ := "2025-06-15T12:00:00.000Z";
  JSON_parse _ := Ok JNull;
  handlebars _ _ := Ok ""
|}.

(** One image, named by the hero, by two sections and by an item. *)
Definition hero_thrice : value :=
  object [
    ("header", object []);
    ("hero", object [("backgroundImage", JStr "/assets/hero.jpg")]);
    ("sections", JArr [
       object [("id", JStr "a"); ("image", JStr "/assets/hero.jpg")];
       object [("id", JStr "b"); ("image", JStr "/assets/hero.jpg");
               ("items", JArr [object [("image", JStr "/assets/hero.jpg")]])]])].

(** A world where staging fails: the index of the repository is locked. *)
Definition index_locked : Env := {|
  dirname := "/app/scripts";
  path_join a b := a +:+ "/" +:+ b;
  perform _ c :=
    match c with
    | GitAdd _ _ => Throw (Failure "fatal: Unable to create index.lock: File exists")
    | _ => Ok tt
    end;
  readFile _ _ := Ok "";
  readdir _ _ := Ok [];
  isDirectory _ _ := Ok true;
  toISOString _ := "2025-06-15T12:00:00.000Z";
  JSON_parse _ := Ok JNull;
  handlebars _ _ := Ok ""
|}.

(** An output directory with two sites and a stray file. *)
Definition three_entries : Env := {|
  dirname := "/app/scripts";
  path_join a b := a +:+ "/" +:+ b;
  perform _ _ := Ok tt;
  readFile _ _ := Ok "";
  readdir _ _ := Ok ["acme"; ".DS_Store"; "bistro"];
  isDirectory _ p := Ok (negb (JsString.endsWith ".DS_Store" p));
  toISOString _ := "2025-06-15T12:00:00.000Z";
  JSON_parse _ := Ok JNull;
  handlebars _ _ := Ok ""
|}.

Definition is_site (entry : string) : bool := negb (String.eqb entry ".DS_Store").

(** Two persisted configurations, of which the first cannot be read; the
    second holds the configuration of [marie]. *)
Definition first_unreadable : Env := {|
  dirname := "/app/scripts";
  path_join a b := a +:+ "/" +:+ b;
  perform _ _ := Ok tt;
  readFile _ p :=
    if JsString.endsWith "a.json" p
    then Throw (Failure "EACCES: permission denied")
    else Ok "(the text of the file)";
  readdir _ _ := Ok ["a.json"; "b.json"];
  isDirectory _ _ := Ok true;
  toISOString _ := "2025-06-15T12:00:00.000Z";
  JSON_parse _ := Ok (default JNull (synthesize marie));
  handlebars _ _ := Ok "<html></html>"
|}.

(** A world where every call succeeds and the configuration file holds
    what was synthesized for [acme]. *)
Definition acme_world : Env := {|
  dirname := "/app/scripts";
  path_join a b := a +:+ "/" +:+ b;
  perform _ _ := Ok tt;
  readFile _ _ := Ok "(the text of the file)";
  readdir _ _ := Ok ["acme.json"];
  isDirectory _ _ := Ok true;
  toISOString _ := "2025-06-15T12:00:00.000Z";
  JSON_parse _ := Ok (generateConfigByType acme);
  handlebars _ _ := Ok "<html></html>"
|}.

(** The two branches of a block, told apart by what they render. *)
Definition branches : Handlebars.options string :=
  {| Handlebars.fn := fun _ => "truthy branch";
     Handlebars.inverse := fun _ => "inverse branch" |}.

End Examples.

(* ===================================================================== *)
(** ** scripts/deploy.js, continued: the client file and the dev server *)
(* ===================================================================== *)

Module NewClient.

Import JsString CreateClient.

(** [createClientConfig], from the point where [inquirer.prompt] has
    returned [answers]; [stringify] is [JSON.stringify(config, null, 2)].
    (The line that greets the operator is printed before the prompt.) *)
Definition createClientConfig (stringify : value -> string) (answers : answers)
  : IO string :=
  Io.console_log
    [Chalk Blue [Glyph 0x1F3A8;
                 Text (latin1 " Création d'une nouvelle configuration client");
                 Text nl]];;
  let config := generateConfigByType answers in
  configPath ← Io.ask (fun env =>
    path_join env (path_join env (dirname env) "../clients")
              (interpolate (clientSlug answers) +:+ ".json"));
  Io.do (WriteFile configPath (stringify config));;
  Io.console_log
    [Chalk Green [Glyph 0x2705; Text (latin1 " Configuration créée: "); Text configPath]];;
  mret configPath.

(** [new-client]: the configuration is written, then built. *)
Definition newClient (stringify : value -> string) (answers : answers) : IO string :=
  configPath ← createClientConfig stringify answers;
  SiteGenerator.generateSite configPath.

End NewClient.

Module DevServer.

Import JsString.

(** What a request for [/api/sites] is answered with: [res.json(names)], or
    [res.status(500).json({ error: error.message })]. *)
Inductive response : Type :=
| Sites (names : list string)
| ServerError (e : error).

(** The handler of [GET /api/sites]. *)
Definition apiSites : IO response :=
  Io.try_catch
    (dir ← Io.ask (fun env => path_join env (dirname env) "../output");
     sites ← Io.fs_readdir dir;
     mret (Sites (filter (fun site => site <> ".DS_Store") sites)))
    (fun error => mret (ServerError error)).

(** The handler of the watcher's [change] event. *)
Definition onChange (filePath : string) : IO unit :=
  Io.console_log
    [Chalk Yellow [Glyph 0x1F504; Text (latin1 " Configuration modifiée: "); Text filePath]];;
  Io.try_catch
    (SiteGenerator.generateSite filePath;;
     Io.console_log
       [Chalk Green [Glyph 0x2705; Text (latin1 " Site régénéré automatiquement")]])
    (fun error =>
       Io.console_error
         [Chalk Red [Glyph 0x274C; Text (latin1 " Erreur de régénération:")]; Object error]).

End DevServer.

(* ===================================================================== *)
(** ** More to speak about *)
(* ===================================================================== *)

Module Watch.

Import JsString.

(** The line that greets the operator of [new-client]. *)
Definition greeting_line : event :=
  Console Stdout
    [Chalk Blue [Glyph 0x1F3A8;
                 Text (latin1 " Création d'une nouvelle configuration client");
                 Text nl]].

Definition change_line (filePath : string) : event :=
  Console Stdout
    [Chalk Yellow [Glyph 0x1F504; Text (latin1 " Configuration modifiée: "); Text filePath]].
Definition regenerated_line : event :=
  Console Stdout [Chalk Green [Glyph 0x2705; Text (latin1 " Site régénéré automatiquement")]].
Definition regeneration_error_line (e : error) : event :=
  Console Stderr
    [Chalk Red [Glyph 0x274C; Text (latin1 " Erreur de régénération:")]; Object e].

End Watch.

Module Bundle.

(** The calls that change the file system. *)
Definition writes (c : call) : bool :=
  match c with
  | WriteFile _ _ | MkdirRecursive _ | CopyFile _ _ => true
  | _ => false
  end.

(** Where a call that changes the file system does so. *)
Definition target (c : call) : option string :=
  match c with
  | WriteFile p _ | MkdirRecursive p | CopyFile _ p => Some p
  | _ => None
  end.

(** What a build may create: the site directory [d] and the six entries
    of the bundle in it. *)
Definition bundle (env : Env) (d : string) : list string :=
  [d; path_join env d "index.html"; path_join env d "styles.css";
   path_join env d "assets"; path_join env d "_redirects";
   path_join env d "netlify.toml"; path_join env d "README.md"].

Definition within (env : Env) (d : string) (c : call) : Prop :=
  match target c with
  | Some p => p ∈ bundle env d
  | None => True
  end.

(** A call that is made on the site directory [siteDir]: git on that
    directory, or the file system at [.git] or [.gitignore] in it. *)
Definition concerns (env : Env) (siteDir : string) (c : call) : Prop :=
  match c with
  | SimpleGit d | GitInit d | GitAdd d _ | GitCommit d _ => d = siteDir
  | Access p => p = path_join env siteDir ".git"
  | WriteFile p _ => p = path_join env siteDir ".gitignore"
  | _ => False
  end.

(** The calls of [new] made once a call (the probe for [.git] apart) has
    failed, [t] being the trace before [new]. *)
Fixpoint calls_after_failure (env : Env) (t : trace) (new : list event) : list call :=
  match new with
  | [] => []
  | ev :: rest =>
      match ev with
      | Called (Access _) => calls_after_failure env (t ++ [ev]) rest
      | Called c =>
          match perform env t c with
          | Throw _ => Log.calls rest
          | Ok _ => calls_after_failure env (t ++ [ev]) rest
          end
      | Console _ _ => calls_after_failure env (t ++ [ev]) rest
      end
  end.

(** The value [v] stands at one of the places the asset collection scans. *)
Definition scanned (config : value) (v : value) : Prop :=
  Config.at2 config "header" "logo" = Ok v \/
  Config.at2 config "hero" "backgroundImage" = Ok v \/
  exists (sections : list value) (i : nat) (section : value),
    Js.get config "sections" = Ok (JArr sections) /\
    sections !! i = Some section /\
    (Js.get section "image" = Ok v \/
     exists (items : list value) (j : nat) (item : value),
       Js.get section "items" = Ok (JArr items) /\
       items !! j = Some item /\
       Js.get item "image" = Ok v).

End Bundle.

Module MoreExamples.

(** A site directory that is not versioned yet: the probe for [.git] fails,
    every other call succeeds. *)
Definition unversioned : Env := {|
  dirname := "/app/scripts";
  path_join a b := a +:+ "/" +:+ b;
  perform _ c :=
    match c with
    | Access _ => Throw (Failure "ENOENT: no such file or directory")
    | _ => Ok tt
    end;
  readFile _ _ := Ok "";
  readdir _ _ := Ok [];
  isDirectory _ _ := Ok true;
  toISOString _ := "2025-06-15T12:00:00.000Z";
  JSON_parse _ := Ok JNull;
  handlebars _ _ := Ok ""
|}.

(** An output directory whose second entry cannot be examined. *)
Definition dangling_link : Env := {|
  dirname := "/app/scripts";
  path_join a b := a +:+ "/" +:+ b;
  perform _ _ := Ok tt;
  readFile _ _ := Ok "";
  readdir _ _ := Ok ["acme"; "old"; "bistro"];
  isDirectory _ p :=
    if JsString.endsWith "/old" p
    then Throw (Failure "ENOENT: no such file or directory")
    else Ok true;
  toISOString _ := "2025-06-15T12:00:00.000Z";
  JSON_parse _ := Ok JNull;
  handlebars _ _ := Ok ""
|}.

(** A world where every call succeeds and the configuration file holds
    what was synthesized for [Examples.overridden], a business. *)
Definition business_world : Env := {|
  dirname := "/app/scripts";
  path_join a b := a +:+ "/" +:+ b;
  perform _ _ := Ok tt;
  readFile _ _ := Ok "(the text of the file)";
  readdir _ _ := Ok [];
  isDirectory _ _ := Ok true;
  toISOString _ := "2025-06-15T12:00:00.000Z";
  JSON_parse _ :=
    Ok (CreateClient.generateConfigByType
          (default Examples.acme (CreateClient.prompt Examples.overridden)));
  handlebars _ _ := Ok "<html></html>"
|}.

(** [JSON.stringify] is not computed here; any text will do for an example. *)
Definition some_text (config : value) : string := "(the text of the configuration)".

End MoreExamples.

(* ===================================================================== *)
(** * Properties *)
(* ===================================================================== *)

(** ** Strings *)

Section StringFacts.

Import JsString.

Lemma lowerChar_idempotent (c : ascii) : lowerChar (lowerChar c) = lowerChar c.
Proof. destruct c as [[] [] [] [] [] [] [] []]; reflexivity. Qed.

Lemma lowerChar_keeps_space (c : ascii) : isWhiteSpace (lowerChar c) = isWhiteSpace c.
Proof. destruct c as [[] [] [] [] [] [] [] []]; reflexivity. Qed.

Lemma toLowerCase_idempotent (s : string) : toLowerCase (toLowerCase s) = toLowerCase s.
Proof.
  induction s as [|c s IH]; simpl; [reflexivity|].
  now rewrite lowerChar_idempotent, IH.
Qed.

(** Replacing white space in a lower-case text leaves it lower-case. *)
Lemma replaceRuns_lower (b : bool) (s : string) :
  toLowerCase s = s -> toLowerCase (replaceRuns b s) = replaceRuns b s.
Proof.
  revert b; induction s as [|c s IH]; intros b H; simpl in *; [reflexivity|].
  injection H as Hc Hs.
  destruct (isWhiteSpace c), b; simpl; rewrite ?Hc, ?IH; auto.
Qed.

Lemma replaceRuns_no_space (b : bool) (s : string) :
  all (fun c => negb (isWhiteSpace c)) (replaceRuns b s) = true.
Proof.
  revert b; induction s as [|c s IH]; intros b; simpl; [reflexivity|].
  destruct (isWhiteSpace c) eqn:E.
  - destruct b; simpl; auto.
  - simpl. now rewrite E, IH.
Qed.

Lemma prefix_app (a b : string) : String.prefix a (a +:+ b) = true.
Proof.
  induction a as [|c a IH]; simpl; [now destruct b|].
  destruct (ascii_dec c c); [assumption | contradiction].
Qed.

Lemma includes_skip (needle a b : string) :
  includes needle b = true -> includes needle (a +:+ b) = true.
Proof.
  intros H. induction a as [|c a IH]; simpl; [assumption|].
  rewrite IH. apply orb_true_r.
Qed.

Lemma includes_prefix (needle hay : string) :
  String.prefix needle hay = true -> includes needle hay = true.
Proof. intros H. destruct hay; simpl in *; rewrite H; reflexivity. Qed.

Lemma includes_here (needle b : string) : includes needle (needle +:+ b) = true.
Proof. apply includes_prefix, prefix_app. Qed.

Lemma includes_middle (a needle b : string) : includes needle (a +:+ needle +:+ b) = true.
Proof. apply includes_skip, includes_here. Qed.

End StringFacts.

(** ** The configuration synthesizer *)

Section Synthesizer.

Import JsString CreateClient.

Lemma lookup_client (a : answers) (template : value) :
  (forall o, template = JObj o -> o !! "client" = None) ->
  (forall xs, template <> JArr xs) -> (forall s, template <> JStr s) ->
  Js.get (assemble a template) "client"
  = Ok (object [("name", field (clientName a)); ("slug", field (clientSlug a));
                ("domain", JStr (interpolate (clientSlug a) +:+ ".netlify.app"))]).
Proof.
  intros Ho Ha Hs. unfold assemble, Js.get. f_equal.
  rewrite !lookup_insert_ne by discriminate.
  destruct template; simpl; try reflexivity.
  - now destruct (Hs s).
  - now destruct (Ha elements).
  - rewrite lookup_union_r by (apply Ho; reflexivity). reflexivity.
Qed.

Lemma templates_keys (a : answers) (k : string) (v : value) :
  templates a !! k = Some v ->
  exists o, v = JObj o /\ o !! "client" = None /\ o !! "contact" = None.
Proof.
  unfold templates, Js.obj; simpl.
  destruct (decide (k = "business")) as [->|Hb].
  { rewrite lookup_insert_eq. intros [= <-]. eexists. split; [reflexivity|].
    split; vm_compute; reflexivity. }
  rewrite lookup_insert_ne by congruence.
  destruct (decide (k = "restaurant")) as [->|Hr].
  { rewrite lookup_insert_eq. intros [= <-]. eexists. split; [reflexivity|].
    split; vm_compute; reflexivity. }
  rewrite lookup_insert_ne by congruence. rewrite lookup_empty. discriminate.
Qed.

Lemma slug_of_config (a : answers) :
  Config.slug (generateConfigByType a) = Ok (field (clientSlug a)).
Proof.
  unfold Config.slug, Config.at2, generateConfigByType, template_of.
  rewrite lookup_client.
  - reflexivity.
  - intros o H. destruct (templates a !! _) eqn:E; simpl in H; [|discriminate].
    apply templates_keys in E as (o' & -> & Hc & _). now injection H as <-.
  - intros xs H. destruct (templates a !! _) eqn:E; simpl in H; [|discriminate].
    apply templates_keys in E as (o' & -> & _). discriminate.
  - intros s H. destruct (templates a !! _) eqn:E; simpl in H; [|discriminate].
    apply templates_keys in E as (o' & -> & _). discriminate.
Qed.

Lemma contact_of_assembled (a : answers) (template : value) :
  Js.get (assemble a template) "contact" = Ok (contact a).
Proof.
  unfold assemble, Js.get.
  rewrite lookup_insert_ne by discriminate. now rewrite lookup_insert_eq.
Qed.

Lemma footer_of_assembled (a : answers) (template : value) :
  Js.get (assemble a template) "footer" = Ok (footer a).
Proof. unfold assemble, Js.get. now rewrite lookup_insert_eq. Qed.

Lemma email_of_config (a : answers) :
  Config.email (generateConfigByType a)
  = Ok (JStr ("contact@" +:+ interpolate (clientSlug a) +:+ ".com")).
Proof.
  unfold Config.email, Config.at2, generateConfigByType.
  rewrite contact_of_assembled. reflexivity.
Qed.

Lemma copyright_of_config (a : answers) :
  Config.copyright (generateConfigByType a)
  = Ok (JStr (latin1 "© 2024 " +:+ interpolate (clientName a)
              +:+ latin1 ". Tous droits réservés.")).
Proof.
  unfold Config.copyright, Config.at2, generateConfigByType.
  rewrite footer_of_assembled. reflexivity.
Qed.

End Synthesizer.

Section SynthesizerClaims.

Import JsString CreateClient.

(** C3, as stated, fails: a slug typed at the prompt is taken as it is, so
    the configuration of [Examples.overridden] has the slug ["My Site"],
    which is neither lower-case nor free of white space. *)
Lemma typed_slug_is_kept_verbatim :
  validate (enteredName Examples.overridden) = true /\
  Config.slug <$> synthesize Examples.overridden = Some (Ok (JStr "My Site")) /\
  toLowerCase "My Site" <> "My Site" /\
  all (fun c => negb (isWhiteSpace c)) "My Site" = false.
Proof. repeat split; try reflexivity. discriminate. Qed.

(** C3, amended: for every accepted client name the synthesized
    configuration holds the slug the prompt settled on (the typed one, or the
    default derived from the name) and the e-mail [contact@<slug>.com]; when
    the slug is left to its default it is lower-case and free of white
    space. *)
Theorem synthesized_slug_and_email (e : entries) :
  validate (enteredName e) = true ->
  exists config slug,
    synthesize e = Some config /\
    slug = or_default (enteredSlug e) (defaultSlug (enteredName e)) /\
    Config.slug config = Ok (JStr slug) /\
    Config.email config = Ok (JStr ("contact@" +:+ slug +:+ ".com")) /\
    (enteredSlug e = "" -> Config.lowercase slug /\ Config.whitespace_free slug).
Proof.
  intros Hv. unfold synthesize, prompt. rewrite Hv. simpl.
  eexists _, _. split; [reflexivity|]. split; [reflexivity|].
  rewrite slug_of_config, email_of_config. simpl.
  repeat split.
  - rewrite H. apply replaceRuns_lower, toLowerCase_idempotent.
  - rewrite H. apply replaceRuns_no_space.
Qed.

Lemma synthesized_slug_and_email_witness :
  validate (enteredName Examples.marie) = true /\
  exists config slug,
    synthesize Examples.marie = Some config /\
    slug = or_default (enteredSlug Examples.marie) (defaultSlug (enteredName Examples.marie)) /\
    Config.slug config = Ok (JStr slug) /\
    Config.email config = Ok (JStr ("contact@" +:+ slug +:+ ".com")) /\
    (enteredSlug Examples.marie = "" -> Config.lowercase slug /\ Config.whitespace_free slug).
Proof.
  split; [reflexivity|].
  apply (synthesized_slug_and_email Examples.marie). reflexivity.
Defined.

(** C4, as stated, fails: synthesized on 15 June 2025, the copyright line
    of ["Acme"] does not hold the text [2025]. *)
Lemma copyright_misses_the_year_2025 :
  Config.current_year Examples.calm [] = "2025" /\
  Config.mentions (Config.current_year Examples.calm [])
    (Config.copyright (generateConfigByType Examples.acme)) = false.
Proof. split; reflexivity. Qed.

(** C4, amended: whenever it is synthesized, the copyright line is the
    fixed text [(c) 2024 <clientName>. Tous droits réservés.]: it embeds
    the year 2024 and the client name, and the clock has no part in it. *)
Theorem copyright_embeds_2024_and_the_name (a : answers) :
  Config.copyright (generateConfigByType a)
  = Ok (JStr (latin1 "© 2024 " +:+ interpolate (clientName a)
              +:+ latin1 ". Tous droits réservés.")) /\
  Config.mentions "2024" (Config.copyright (generateConfigByType a)) = true /\
  Config.mentions (interpolate (clientName a))
    (Config.copyright (generateConfigByType a)) = true.
Proof.
  rewrite copyright_of_config. unfold Config.mentions.
  split; [reflexivity|]. split.
  - assert (E : forall x, latin1 "© 2024 " +:+ x
                         = (chr 169 +:+ " ") +:+ "2024" +:+ (" " +:+ x))
      by (intros x; vm_compute; reflexivity).
    rewrite E. apply includes_middle.
  - apply includes_middle.
Qed.

(** C9: whatever is spread in second place, and so for every site type,
    registered or not or absent, the configuration's [contact] and [footer]
    are the shared placeholder sections: they are written last and replace
    a [contact] or [footer] that a type template would bring. *)
Theorem shared_sections_win (a : answers) (template : value) :
  Js.get (assemble a template) "contact" = Ok (contact a) /\
  Js.get (assemble a template) "footer" = Ok (footer a) /\
  Js.get (generateConfigByType a) "contact" = Ok (contact a) /\
  Js.get (generateConfigByType a) "footer" = Ok (footer a).
Proof.
  unfold generateConfigByType.
  rewrite !contact_of_assembled, !footer_of_assembled. auto.
Qed.

End SynthesizerClaims.

(** ** The conditional helper *)

Section Helper.

Import Handlebars.

(** C5, as stated, fails: an empty list is an object, hence truthy, and the
    helper renders the truthy branch for it. *)
Lemma empty_list_takes_the_truthy_branch :
  Js.truthy (JArr []) = true /\
  if_helper (JObj ∅) (JArr []) Examples.branches = "truthy branch".
Proof. split; reflexivity. Qed.

(** C5, amended: the helper renders the truthy branch exactly when the
    value is truthy for JavaScript and the inverse branch otherwise; the
    falsy values are [undefined], [null], [false], [0], [NaN] and the empty
    string, and every array, the empty one too, takes the truthy branch. *)
Theorem if_helper_follows_ToBoolean {A : Type} (this conditional : value) (o : options A) :
  if_helper this conditional o
  = (if Js.truthy conditional then fn o this else inverse o this) /\
  ((conditional = JUndefined \/ conditional = JNull \/ conditional = JBool false \/
    conditional = JNum "0" \/ conditional = JNum "NaN" \/ conditional = JStr "") ->
   if_helper this conditional o = inverse o this) /\
  (Js.truthy conditional = false <->
   (conditional = JUndefined \/ conditional = JNull \/ conditional = JBool false \/
    conditional = JNum "0" \/ conditional = JNum "NaN" \/ conditional = JStr "")) /\
  (forall xs : list value, if_helper this (JArr xs) o = fn o this).
Proof.
  split; [reflexivity|]. split; [|split; [|reflexivity]].
  - intros [->|[->|[->|[->|[->| ->]]]]]; reflexivity.
  - split.
    + destruct conditional as [| |[]|r|s|xs|ps]; simpl; try discriminate; auto 7.
      * intros H. apply negb_false_iff, orb_true_iff in H.
        destruct H as [H|H]; apply String.eqb_eq in H; subst; auto 7.
      * intros H. apply negb_false_iff, String.eqb_eq in H. subst. auto 7.
    + intros [->|[->|[->|[->|[->| ->]]]]]; reflexivity.
Qed.

End Helper.

(** ** The asset collection *)

Section AssetSet.

Import SiteGenerator Assets.
















Lemma present_get (v : value) (key : string) :
  present v = true -> exists x, Js.get v key = Ok x.
Proof. destruct v; simpl; try discriminate; eauto. Qed.

Lemma has_get (config : value) (key : string) :
  has config key = true ->
  exists v, Js.get config key = Ok v /\ forall k, exists x, Js.get v k = Ok x.
Proof.
  unfold has. destruct (Js.get config key) as [v|]; [|discriminate].
  intros H. exists v. split; [reflexivity|]. intros k. now apply present_get.
Qed.

Lemma scanItems_return (items l : list value) :
  forallb present items = true -> exists l', forEach scanItem l items = Ok l'.
Proof.
  revert l. induction items as [|x items IH]; intros l H; [simpl; eauto|].
  simpl in H. apply andb_true_iff in H as [Hx H].
  destruct (present_get x "image" Hx) as [image E].
  assert (Ex : scanItem l x = Ok (add_if_truthy l image))
    by (unfold scanItem; rewrite E; reflexivity).
  cbn [forEach]. rewrite Ex. simpl. apply IH, H.
Qed.

Lemma scanSection_returns (section : value) (l : list value) :
  section_scannable section = true -> exists l', scanSection l section = Ok l'.
Proof.
  unfold section_scannable. intros H.
  destruct (Js.get section "items") as [items|] eqn:Ei; [|discriminate].
  assert (exists image, Js.get section "image" = Ok image) as [image Eim]
    by (destruct section; simpl in Ei; try discriminate; simpl; eauto).
  unfold scanSection. rewrite Eim. simpl. rewrite Ei. simpl.
  unfold items_scannable in H. destruct (Js.truthy items); [|eauto].
  destruct items; try discriminate. simpl. apply scanItems_return, H.
Qed.

Lemma scanSections_return (sections l : list value) :
  forallb section_scannable sections = true ->
  exists l', forEach scanSection l sections = Ok l'.
Proof.
  revert l. induction sections as [|x sections IH]; intros l H; [simpl; eauto|].
  simpl in H. apply andb_true_iff in H as [Hx H].
  destruct (scanSection_returns x l Hx) as [l1 E].
  cbn [forEach]. rewrite E. simpl. apply IH, H.
Qed.

(** The scan of a scannable configuration, step by step. *)
Lemma collectAssets_scannable (config : value) :
  scannable config = true ->
  exists header logo hero backgroundImage sections assets,
    Js.get config "header" = Ok header /\ Js.get header "logo" = Ok logo /\
    Js.get config "hero" = Ok hero /\
    Js.get hero "backgroundImage" = Ok backgroundImage /\
    Js.get config "sections" = Ok (JArr sections) /\
    forEach scanSection (add_if_truthy (add_if_truthy [] logo) backgroundImage) sections
    = Ok assets /\
    collectAssets config = Ok assets.
Proof.
  unfold scannable. intros H.
  apply andb_true_iff in H as [H Hs]. apply andb_true_iff in H as [Hh Hr].
  apply has_get in Hh as (header & Eh & Hh). destruct (Hh "logo") as [logo El].
  apply has_get in Hr as (hero & Er & Hr).
  destruct (Hr "backgroundImage") as [backgroundImage Eb].
  destruct (Js.get config "sections") as [[| | | | |sections|]|] eqn:Es; try discriminate.
  destruct (scanSections_return sections
              (add_if_truthy (add_if_truthy [] logo) backgroundImage) Hs) as [assets Ea].
  exists header, logo, hero, backgroundImage, sections, assets.
  repeat (split; [first [assumption | reflexivity]|]).
  unfold collectAssets. rewrite Eh. simpl. rewrite El. simpl.
  rewrite Er. simpl. rewrite Eb. simpl. rewrite Es. simpl. exact Ea.
Qed.




(** The scenario of the specification: one image named by the hero and by
    two sections is listed once. *)
Lemma hero_image_listed_once :
  collectAssets Examples.hero_thrice = Ok [JStr "/assets/hero.jpg"] /\
  generateAssetsList Examples.hero_thrice = Ok "- /assets/hero.jpg".
Proof. split; reflexivity. Qed.

End AssetSet.

(** ** Running in the world *)

Section Traces.

Import Log.

Lemma generations_app (t u : trace) : generations (t ++ u) = generations t ++ generations u.
Proof. apply omap_app. Qed.

Lemma deployments_app (t u : trace) : deployments (t ++ u) = deployments t ++ deployments u.
Proof. apply omap_app. Qed.

Lemma calls_app (t u : trace) : calls (t ++ u) = calls t ++ calls u.
Proof. apply omap_app. Qed.

Lemma stderr_app (t u : trace) : stderr (t ++ u) = stderr t ++ stderr u.
Proof. apply List.filter_app. Qed.

End Traces.

(** Symbolic execution: name the answer of the environment to the next call,
    and go down both ways. *)
Ltac next_answer :=
  match goal with
  | |- context [match ?x with _ => _ end] =>
      lazymatch x with
      | context [match _ with _ => _ end] => fail
      | _ => destruct x eqn:?
      end
  end.

(** Unfold the scripts and the monad, and nothing of the data. *)
Ltac io_run :=
  cbv beta iota zeta delta
    [Io.try_catch Io.do Io.console_log Io.console_error Io.ask Io.pure Io.throw
     Io.now Io.fs_readFile Io.fs_readdir Io.fs_stat_isDirectory Io.join_value
     mbind mret IO_bind IO_ret negb fst snd
     DeploymentManager.deployToNetlify DeploymentManager.hasGit
     DeploymentManager.initializeGit
     SiteGenerator.generateSite SiteGenerator.loadConfig SiteGenerator.generateHTML
     SiteGenerator.copyAssets SiteGenerator.setupProjectFiles].

Ltac io_cases := io_run; repeat (next_answer; io_run).

Lemma snoc_step {A} (a p n : list A) (x : A) : a = p ++ n -> a ++ [x] = p ++ (n ++ [x]).
Proof. intros ->. symmetry. apply app_assoc. Qed.

(** Read off what was appended to [p] in [((p ++ [e1]) ++ [e2]) ++ ...]. *)
Ltac peel := first [ exact (eq_sym (app_nil_r _)) | apply snoc_step; peel ].

Ltac use_answers :=
  repeat match goal with H : perform _ _ _ = _ |- _ => rewrite H end.

Section Deployment.

Import Log DeploymentManager.

Variable env : Env.

Lemma deployToNetlify_runs (t : trace) (siteDir siteName : string) :
  exists ok new,
    deployToNetlify siteDir siteName env t
    = (Ok ok, (t ++ [deployment_line siteName]) ++ new) /\
    deployments new = [] /\
    (failures env (t ++ [deployment_line siteName]) new = [] /\ ok = true /\ stderr new = []
     \/ exists e, failures env (t ++ [deployment_line siteName]) new = [e] /\ ok = false /\
                  stderr new = [deployment_error_line e] /\
                  last new = Some (deployment_error_line e)) /\
    (perform env (t ++ [deployment_line siteName]) (Access (path_join env siteDir ".git"))
     = Ok tt ->
     List.filter sets_up (calls new) = [] /\
     (ok = true ->
      exists stamp,
        calls new = [Access (path_join env siteDir ".git"); SimpleGit siteDir;
                     GitAdd siteDir ".";
                     GitCommit siteDir ("Deploy " +:+ siteName +:+ " - " +:+ stamp)]) /\
     ((forall t' c, git_work siteDir c = true -> perform env t' c = Ok tt) -> ok = true)).
Proof.
  io_cases.
  all: eexists _, _; split; [apply f_equal2; [reflexivity | peel]|]; cbn [app].
  all: split; [reflexivity|].
  all: unfold deployment_line; cbn [failures app]; use_answers.
  all: split;
    [ first [ left; repeat split; reflexivity
            | right; eexists; repeat split; reflexivity ]|].
  all: intros ?; first [ discriminate | split; [reflexivity|] ].
  all: split; [intros ?; first [discriminate | eexists; reflexivity]|].
  all: intros Hgit; first [ reflexivity | exfalso ].
  all: match goal with
       | H : perform _ _ ?c = Throw _ |- _ =>
           rewrite Hgit in H by (cbn; apply String.eqb_refl); discriminate H
       end.
Qed.

Lemma redeploy_runs (siteDir siteName : string) :
  (forall t, perform env t (Access (path_join env siteDir ".git")) = Ok tt) ->
  forall n t,
  exists oks new,
    Batch.redeploy n siteDir siteName env t = (Ok oks, t ++ new) /\
    length oks = n /\
    List.filter sets_up (calls new) = [] /\
    ((forall t' c, git_work siteDir c = true -> perform env t' c = Ok tt) ->
     oks = replicate n true /\
     length (calls new) = (4 * n)%nat /\
     length (List.filter commits (calls new)) = n /\
     length (List.filter stages (calls new)) = n).
Proof.
  intros Hgit. induction n as [|n IH]; intros t.
  - exists [], []. cbn. rewrite app_nil_r. repeat split.
  - destruct (deployToNetlify_runs t siteDir siteName)
      as (ok & new & Hrun & _ & _ & Hversioned).
    destruct (Hversioned (Hgit _)) as (Hsetup & Hcalls & Hok).
    destruct (IH ((t ++ [deployment_line siteName]) ++ new))
      as (oks & new' & Hrest & Hlen & Hsetup' & Hwork).
    exists (ok :: oks), (deployment_line siteName :: new ++ new').
    split.
    { cbn [Batch.redeploy]. unfold mbind, IO_bind at 1. rewrite Hrun.
      unfold mbind, IO_bind at 1. rewrite Hrest. unfold mret, IO_ret.
      rewrite <- !app_assoc. reflexivity. }
    split; [cbn; now rewrite Hlen|].
    split.
    { change (calls (deployment_line siteName :: new ++ new')) with (calls (new ++ new')).
      rewrite calls_app, List.filter_app, Hsetup, Hsetup'. reflexivity. }
    intros Hall. specialize (Hok Hall). subst ok.
    destruct (Hcalls eq_refl) as [stamp Hc].
    destruct (Hwork Hall) as (-> & Hcount & Hcommits & Hstages).
    change (calls (deployment_line siteName :: new ++ new')) with (calls (new ++ new')).
    rewrite calls_app, !List.filter_app, !length_app, Hcount, Hcommits, Hstages, Hc.
    repeat split. cbn. lia.
Qed.

End Deployment.

Section DeploymentClaims.

Import Log DeploymentManager.

(** C7, as stated, fails: with the index locked, the deployment of the
    site [acme] is reported as [false] and one line goes to [stderr], but
    that line is the fixed text and the error, without the name of the
    site. *)
Lemma deployment_error_line_omits_the_site :
  (deployToNetlify "/app/output/acme" "acme" Examples.index_locked []).1 = Ok false /\
  stderr (deployToNetlify "/app/output/acme" "acme" Examples.index_locked []).2
  = [deployment_error_line (Failure "fatal: Unable to create index.lock: File exists")] /\
  JsString.includes "acme"
    (line_text
       (deployment_error_line (Failure "fatal: Unable to create index.lock: File exists")))
  = false.
Proof. repeat split; vm_compute; reflexivity. Qed.

(** C7, amended: [deployToNetlify] never throws.  It first prints the line
    that names the site.  When the environment fails a call made after that
    (opening the repository, [git init], writing the ignore-list, [add],
    [commit]; the probe for [.git] is not a failure), the error is caught
    and printed on [stderr] as a fixed text followed by the error, the last
    line of the run and the only one on [stderr], and the result is [false].
    When no call fails the result is [true] and nothing goes to [stderr]. *)
Theorem deployToNetlify_reports_a_boolean (env : Env) (t : trace) (siteDir siteName : string) :
  exists ok new,
    deployToNetlify siteDir siteName env t = (Ok ok, t ++ deployment_line siteName :: new) /\
    (failures env (t ++ [deployment_line siteName]) new = [] /\ ok = true /\ stderr new = []
     \/ exists e, failures env (t ++ [deployment_line siteName]) new = [e] /\ ok = false /\
                  stderr new = [deployment_error_line e] /\
                  last new = Some (deployment_error_line e)).
Proof.
  destruct (deployToNetlify_runs env t siteDir siteName) as (ok & new & Hrun & _ & H & _).
  exists ok, new. split; [|exact H].
  rewrite Hrun, <- app_assoc. reflexivity.
Qed.

(** C8: on a site directory where [.git] is found, however often
    [deployToNetlify] is called, no call initializes a repository or writes
    a file (the ignore-list is not rewritten); and when the git calls on the
    directory succeed, each of the [n] calls returns [true] and makes four
    calls (the probe, opening the repository, one [add .] and one
    [commit]), so there are [n] commits after [n] calls, for every [n]. *)
Theorem redeploying_a_versioned_site (env : Env) (siteDir siteName : string) :
  (forall t, perform env t (Access (path_join env siteDir ".git")) = Ok tt) ->
  forall (n : nat) (t : trace),
  exists oks new,
    Batch.redeploy n siteDir siteName env t = (Ok oks, t ++ new) /\
    length oks = n /\
    List.filter sets_up (calls new) = [] /\
    ((forall t' c, git_work siteDir c = true -> perform env t' c = Ok tt) ->
     oks = replicate n true /\
     length (calls new) = (4 * n)%nat /\
     length (List.filter commits (calls new)) = n /\
     length (List.filter stages (calls new)) = n).
Proof. apply redeploy_runs. Qed.

Lemma redeploying_a_versioned_site_witness :
  (forall t, perform Examples.calm t
               (Access (path_join Examples.calm "/app/output/acme" ".git")) = Ok tt) /\
  exists oks new,
    Batch.redeploy 3 "/app/output/acme" "acme" Examples.calm [] = (Ok oks, [] ++ new) /\
    length oks = 3%nat /\
    List.filter sets_up (calls new) = [] /\
    ((forall t' c, git_work "/app/output/acme" c = true -> perform Examples.calm t' c = Ok tt) ->
     oks = replicate 3 true /\
     length (calls new) = (4 * 3)%nat /\
     length (List.filter commits (calls new)) = 3%nat /\
     length (List.filter stages (calls new)) = 3%nat).
Proof.
  split; [reflexivity|].
  apply (redeploying_a_versioned_site Examples.calm "/app/output/acme" "acme").
  reflexivity.
Defined.

End DeploymentClaims.

Section BulkDeployment.

Import Log DeploymentManager.

Variable env : Env.
Variable isDir : string -> bool.

Lemma deployEntry_runs (sites : list string) (site : string) (t : trace) :
  (forall t' s, s ∈ sites ->
     isDirectory env t' (path_join env (outputDir env) s) = Ok (isDir s)) ->
  site ∈ sites ->
  exists chunk, deployEntry site env t = (Ok tt, t ++ chunk) /\
                Batch.entry_events env isDir site chunk.
Proof.
  intros Hstat Hin. unfold deployEntry, Batch.entry_events.
  cbv beta iota zeta delta [Io.ask Io.fs_stat_isDirectory mbind mret IO_bind IO_ret].
  rewrite (Hstat _ _ Hin). destruct (isDir site).
  - destruct (deployToNetlify_runs env
                (t ++ [Called (Stat (path_join env (outputDir env) site))])
                (path_join env (outputDir env) site) site)
      as (ok & new & Hrun & Hnone & _).
    rewrite Hrun. eexists. split; [|exists new; split; [reflexivity|exact Hnone]].
    rewrite <- !app_assoc. reflexivity.
  - eexists. split; reflexivity.
Qed.

Lemma deploy_loop_runs (sites : list string) :
  (forall t' s, s ∈ sites ->
     isDirectory env t' (path_join env (outputDir env) s) = Ok (isDir s)) ->
  forall t, exists chunks,
    Io.for_of sites deployEntry env t = (Ok tt, t ++ concat chunks) /\
    Forall2 (Batch.entry_events env isDir) sites chunks.
Proof.
  induction sites as [|site sites IH]; intros Hstat t.
  - exists []. cbn. rewrite app_nil_r. split; [reflexivity|constructor].
  - destruct (deployEntry_runs (site :: sites) site t Hstat) as (chunk & Hrun & Hchunk);
      [left|].
    destruct (IH (fun t' s Hs => Hstat t' s (list_elem_of_further _ _ _ Hs)) (t ++ chunk))
      as (chunks & Hrest & Hall).
    exists (chunk :: chunks). split; [|now constructor].
    cbn [Io.for_of]. unfold mbind, IO_bind at 1. rewrite Hrun, Hrest.
    cbn [concat]. rewrite app_assoc. reflexivity.
Qed.

Lemma deployments_of_entries (sites : list string) (chunks : list (list event)) :
  Forall2 (Batch.entry_events env isDir) sites chunks ->
  deployments (concat chunks) = List.filter isDir sites.
Proof.
  induction 1 as [|site chunk sites chunks Hchunk _ IH]; [reflexivity|].
  cbn [concat List.filter]. rewrite deployments_app, IH.
  unfold Batch.entry_events in Hchunk. destruct (isDir site).
  - destruct Hchunk as (rest & -> & Hrest).
    change (deployments (Called _ :: deployment_line site :: rest))
      with (site :: deployments rest).
    now rewrite Hrest.
  - now rewrite Hchunk.
Qed.

End BulkDeployment.

Section BulkDeploymentClaims.

Import Log DeploymentManager.

(** C10, as stated, fails: of the entries [acme], [old], [bistro], the
    second cannot be examined ([stat] throws); [bistro] is a directory, yet
    [deployAll] has thrown before reaching it and only [acme] is deployed. *)
Lemma directory_after_a_dangling_entry_is_not_deployed :
  readdir MoreExamples.dangling_link [] (outputDir MoreExamples.dangling_link)
  = Ok ["acme"; "old"; "bistro"] /\
  (forall t : trace,
     isDirectory MoreExamples.dangling_link t
       (path_join MoreExamples.dangling_link (outputDir MoreExamples.dangling_link) "bistro")
     = Ok true) /\
  throws (deployAll MoreExamples.dangling_link []).1 = true /\
  deployments (deployAll MoreExamples.dangling_link []).2 = ["acme"].
Proof.
  split; [reflexivity|]. split; [reflexivity|].
  split; vm_compute; reflexivity.
Qed.

(** C10, amended: when the output directory is listed and every entry can be
    examined, [deployAll] walks the entries in order and each adds its own
    stretch to the trace: for an entry that is not a directory, the [stat]
    call and nothing else (no deployment, no line on the console); for a
    directory, the [stat] call and one deployment of that site.  The
    deployments started are those of the directories, in the order of the
    listing. *)
Theorem deployAll_deploys_the_directories
        (env : Env) (isDir : string -> bool) (sites : list string) (t : trace) :
  readdir env t (outputDir env) = Ok sites ->
  (forall t' site, site ∈ sites ->
     isDirectory env t' (path_join env (outputDir env) site) = Ok (isDir site)) ->
  exists chunks,
    deployAll env t = (Ok tt, t ++ Called (Readdir (outputDir env)) :: concat chunks) /\
    Forall2 (Batch.entry_events env isDir) sites chunks /\
    deployments (concat chunks) = List.filter isDir sites.
Proof.
  intros Hdir Hstat.
  destruct (deploy_loop_runs env isDir sites Hstat (t ++ [Called (Readdir (outputDir env))]))
    as (chunks & Hrun & Hall).
  exists chunks. split; [|split; [exact Hall|]].
  - unfold deployAll.
    cbv beta iota zeta delta [Io.ask Io.fs_readdir mbind mret IO_bind IO_ret].
    rewrite Hdir, Hrun, <- app_assoc. reflexivity.
  - eapply deployments_of_entries, Hall.
Qed.

Lemma deployAll_deploys_the_directories_witness :
  readdir Examples.three_entries [] (outputDir Examples.three_entries)
  = Ok ["acme"; ".DS_Store"; "bistro"] /\
  (forall t' site, site ∈ ["acme"; ".DS_Store"; "bistro"] ->
     isDirectory Examples.three_entries t'
       (path_join Examples.three_entries (outputDir Examples.three_entries) site)
     = Ok (Examples.is_site site)) /\
  exists chunks,
    deployAll Examples.three_entries []
    = (Ok tt, [] ++ Called (Readdir (outputDir Examples.three_entries)) :: concat chunks) /\
    Forall2 (Batch.entry_events Examples.three_entries Examples.is_site)
            ["acme"; ".DS_Store"; "bistro"] chunks /\
    deployments (concat chunks) = List.filter Examples.is_site ["acme"; ".DS_Store"; "bistro"].
Proof.
  assert (Hstat : forall (t' : trace) site, site ∈ ["acme"; ".DS_Store"; "bistro"] ->
     isDirectory Examples.three_entries t'
       (path_join Examples.three_entries (outputDir Examples.three_entries) site)
     = Ok (Examples.is_site site)).
  { intros t' site H.
    repeat (apply elem_of_cons in H as [->|H]; [reflexivity|]). inversion H. }
  split; [reflexivity|]. split; [exact Hstat|].
  apply (deployAll_deploys_the_directories Examples.three_entries Examples.is_site
           ["acme"; ".DS_Store"; "bistro"] []); [reflexivity | exact Hstat].
Defined.

(** What the stray file of [Examples.three_entries] leaves in the trace. *)
Lemma stray_file_is_skipped :
  deployments (deployAll Examples.three_entries []).2 = ["acme"; "bistro"] /\
  (deployEntry ".DS_Store" Examples.three_entries []).2
  = [Called (Stat "/app/scripts/../output/.DS_Store")].
Proof. split; vm_compute; reflexivity. Qed.

End BulkDeploymentClaims.

Section Generation.

Import Log SiteGenerator.

Variable env : Env.

Lemma generateSite_runs (t : trace) (configPath : string) :
  exists r new,
    generateSite configPath env t = (r, (t ++ [generation_line configPath]) ++ new) /\
    generations new = [] /\
    match r with
    | Ok _ =>
        stderr new = [] /\
        exists config content,
          (loadConfig configPath env (t ++ [generation_line configPath])).1 = Ok config /\
          readmeContent config = Ok content
    | Throw e =>
        stderr new = [generation_error_line e] /\
        last new = Some (generation_error_line e)
    end.
Proof.
  unfold generation_line. io_cases.
  all: eexists _, _; split; [apply f_equal2; [reflexivity | peel]|]; cbn [app].
  all: split; [reflexivity|]; cbv beta iota.
  all: split; [reflexivity|]; try reflexivity.
  eexists _, _; split; [reflexivity|eassumption].
Qed.

End Generation.

Section BulkGeneration.

Import Log SiteGenerator.

Variable env : Env.

Lemma generateEntry_runs (t : trace) (configFile : string) :
  let configPath := path_join env (clientsDir env) configFile in
  exists r new,
    generateEntry configFile env t = (r, (t ++ [generation_line configPath]) ++ new) /\
    generations new = [] /\
    match r with
    | Ok _ => stderr new = []
    | Throw e =>
        stderr new = [generation_error_line e] /\
        last new = Some (generation_error_line e) /\
        (generateSite configPath env t).1 = Throw e
    end.
Proof.
  intros configPath.
  destruct (generateSite_runs env t configPath) as (r & new & Hrun & Hnone & Hr).
  unfold generateEntry.
  cbv beta iota zeta delta [Io.ask mbind mret IO_bind IO_ret].
  fold configPath. rewrite Hrun.
  destruct r as [d|e].
  - exists (Ok tt), new. destruct Hr as [Hr _]. auto.
  - exists (Throw e), new. destruct Hr as [Hr Hlast]. repeat split; auto.
Qed.

Lemma generate_loop_runs (configFiles : list string) (t : trace) :
  exists r new,
    Io.for_of configFiles generateEntry env t = (r, t ++ new) /\
    match r with
    | Ok _ => generations new = Batch.config_paths env configFiles /\ stderr new = []
    | Throw e =>
        exists before bad after t_bad,
          configFiles = before ++ bad :: after /\
          generations new = Batch.config_paths env (before ++ [bad]) /\
          (generateSite (path_join env (clientsDir env) bad) env t_bad).1 = Throw e /\
          stderr new = [generation_error_line e] /\
          last new = Some (generation_error_line e)
    end.
Proof.
  revert t. induction configFiles as [|f files IH]; intros t.
  - exists (Ok tt), []. cbn. rewrite app_nil_r. auto.
  - destruct (generateEntry_runs t f) as (r & new & Hrun & Hnone & Hr).
    cbn [Io.for_of]. unfold mbind, IO_bind at 1. rewrite Hrun.
    destruct r as [[]|e].
    + destruct (IH ((t ++ [generation_line (path_join env (clientsDir env) f)]) ++ new))
        as (r' & new' & Hrest & Hr').
      rewrite Hrest.
      exists r', (generation_line (path_join env (clientsDir env) f) :: new ++ new').
      split; [now rewrite <- !app_assoc|].
      assert (Hgen : generations
                       (generation_line (path_join env (clientsDir env) f) :: new ++ new')
                     = path_join env (clientsDir env) f :: generations new').
      { change (generations (generation_line ?p :: ?l)) with (p :: generations l).
        now rewrite generations_app, Hnone. }
      assert (Herr : stderr (generation_line (path_join env (clientsDir env) f) :: new ++ new')
                     = stderr new').
      { change (stderr (generation_line ?p :: ?l)) with (stderr l).
        now rewrite stderr_app, Hr. }
      destruct r' as [[]|e].
      * destruct Hr' as [Hg Hs]. rewrite Hgen, Herr, Hg. auto.
      * destruct Hr' as (before & bad & after & t_bad & -> & Hg & Hbad & Hs & Hlast).
        exists (f :: before), bad, after, t_bad.
        rewrite Hgen, Herr, Hg. repeat split; auto.
        rewrite app_comm_cons, last_app, Hlast. reflexivity.
    + destruct Hr as (Hs & Hlast & Hbad).
      exists (Throw e), (generation_line (path_join env (clientsDir env) f) :: new).
      split; [now rewrite <- !app_assoc|].
      exists [], f, files, t. repeat split; auto.
      * change (generations (generation_line ?p :: ?l)) with (p :: generations l).
        now rewrite Hnone.
      * destruct new; [discriminate Hlast|exact Hlast].
Qed.

End BulkGeneration.

Section GenerationClaims.

Import Log SiteGenerator.

(** C1, as stated, fails: of two persisted configurations, the first
    cannot be read and the second would build; the batch attempts the first
    and stops, and the second is never attempted. *)
Lemma later_configuration_is_not_attempted :
  readdir Examples.first_unreadable [] (clientsDir Examples.first_unreadable)
  = Ok ["a.json"; "b.json"] /\
  throws (generateSite "/app/scripts/../clients/a.json" Examples.first_unreadable []).1 = true /\
  throws (generateSite "/app/scripts/../clients/b.json" Examples.first_unreadable []).1 = false /\
  generations (generateAllSites Examples.first_unreadable []).2
  = ["/app/scripts/../clients/a.json"].
Proof. repeat split; vm_compute; reflexivity. Qed.

(** C1, amended: [generateAllSites] never throws.  When the
    configurations cannot be listed it logs that error.  Otherwise it
    attempts the JSON files in order; when building one of them throws, the
    error is logged by [generateSite] and once more for the batch, which
    ends there: the configurations after the failing one are not
    attempted.  When no build throws, all are attempted and the batch ends
    with its line of success. *)
Theorem generateAllSites_stops_at_the_first_failure (env : Env) (t : trace) :
  exists new,
    generateAllSites env t = (Ok tt, t ++ Called (Readdir (clientsDir env)) :: new) /\
    match readdir env t (clientsDir env) with
    | Throw e => new = [batch_error_line e]
    | Ok configFiles =>
        exists rest,
          new = batch_line (length (jsonFiles configFiles)) :: rest /\
          (generations rest = Batch.config_paths env (jsonFiles configFiles) /\
           stderr rest = [] /\ last rest = Some batch_done_line
           \/ exists before bad after e t_bad,
               jsonFiles configFiles = before ++ bad :: after /\
               generations rest = Batch.config_paths env (before ++ [bad]) /\
               (generateSite (path_join env (clientsDir env) bad) env t_bad).1 = Throw e /\
               stderr rest = [generation_error_line e; batch_error_line e] /\
               last rest = Some (batch_error_line e))
    end.
Proof.
  unfold generateAllSites.
  cbv beta iota zeta delta
    [Io.try_catch Io.ask Io.fs_readdir Io.console_log Io.console_error
     mbind mret IO_bind IO_ret].
  destruct (readdir env t (clientsDir env)) as [configFiles|e].
  - fold (batch_line (length (jsonFiles configFiles))).
    destruct (generate_loop_runs env (jsonFiles configFiles)
                ((t ++ [Called (Readdir (clientsDir env))])
                 ++ [batch_line (length (jsonFiles configFiles))]))
      as (r & new & Hrun & Hr).
    rewrite Hrun. destruct r as [[]|e].
    + destruct Hr as [Hg Hs]. eexists. split; [now rewrite <- !app_assoc|].
      eexists. split; [reflexivity|]. left.
      rewrite generations_app, stderr_app, Hg, Hs, last_snoc, app_nil_r. auto.
    + destruct Hr as (before & bad & after & t_bad & Hsplit & Hg & Hbad & Hs & Hlast).
      eexists. split; [now rewrite <- !app_assoc|].
      eexists. split; [reflexivity|]. right.
      exists before, bad, after, e, t_bad.
      rewrite generations_app, stderr_app, Hg, Hs, last_snoc, app_nil_r.
      split; [exact Hsplit|]. split; [reflexivity|]. split; [exact Hbad|].
      split; reflexivity.
  - eexists. split; [now rewrite <- !app_assoc|]. reflexivity.
Qed.

End GenerationClaims.

Section UnregisteredType.

Import Log SiteGenerator CreateClient.

Lemma assembled_without_template (a : answers) :
  assemble a JUndefined
  = JObj (<["footer" := footer a]> (<["contact" := contact a]> (baseConfig a))).
Proof. reflexivity. Qed.

Lemma no_content_blocks (a : answers) (key : string) :
  key = "header" \/ key = "hero" \/ key = "sections" ->
  Js.get (assemble a JUndefined) key = Ok JUndefined.
Proof. intros [->|[->| ->]]; vm_compute; reflexivity. Qed.

Lemma assets_of_headerless (config : value) :
  Js.get config "header" = Ok JUndefined -> generateAssetsList config = Throw TypeError.
Proof. intros H. unfold generateAssetsList, collectAssets. rewrite H. reflexivity. Qed.

Lemma readme_of_headerless (a : answers) :
  readmeContent (assemble a JUndefined) = Throw TypeError.
Proof.
  unfold readmeContent.
  assert (Hname : interpolate2 (assemble a JUndefined) "client" "name"
                  = Ok (interpolate (clientName a))).
  { unfold interpolate2. rewrite lookup_client by (intros; discriminate).
    destruct a as [[name|] ? ? ? ? ? ?]; reflexivity. }
  rewrite Hname. simpl.
  rewrite assets_of_headerless by (apply no_content_blocks; auto). reflexivity.
Qed.

(** C2 at work: for an answer set whose site type has no registered
    template, the configuration is the base skeleton with the shared
    [contact] and [footer], without [header], [hero] or [sections]; the asset
    list of that configuration is a [TypeError] (reading [logo] of the absent
    [header]), and so the build of a file that holds it throws, whatever the
    world answers. *)
Theorem build_of_an_unregistered_type_throws
        (a : answers) (env : Env) (t : trace) (configPath : string) :
  templates a !! interpolate (siteType_ a) = None ->
  (loadConfig configPath env (t ++ [generation_line configPath])).1
  = Ok (generateConfigByType a) ->
  generateConfigByType a
  = JObj (<["footer" := footer a]> (<["contact" := contact a]> (baseConfig a))) /\
  Js.get (generateConfigByType a) "header" = Ok JUndefined /\
  Js.get (generateConfigByType a) "hero" = Ok JUndefined /\
  generateAssetsList (generateConfigByType a) = Throw TypeError /\
  exists e, (generateSite configPath env t).1 = Throw e.
Proof.
  intros Hnone Hload. unfold generateConfigByType, template_of in *.
  rewrite Hnone in *. cbn [default] in *.
  split; [apply assembled_without_template|].
  split; [apply no_content_blocks; auto|].
  split; [apply no_content_blocks; auto|].
  split; [apply assets_of_headerless, no_content_blocks; auto|].
  destruct (generateSite_runs env t configPath) as (r & new & Hrun & _ & Hr).
  rewrite Hrun. destruct r as [d|e]; [|eauto].
  destruct Hr as (_ & config & content & Hconfig & Hcontent).
  rewrite Hload in Hconfig. injection Hconfig as <-.
  rewrite readme_of_headerless in Hcontent. discriminate.
Qed.

Lemma build_of_an_unregistered_type_throws_witness :
  templates Examples.acme !! interpolate (siteType_ Examples.acme) = None /\
  (loadConfig "/app/clients/acme.json" Examples.acme_world
     ([] ++ [generation_line "/app/clients/acme.json"])).1
  = Ok (generateConfigByType Examples.acme) /\
  generateConfigByType Examples.acme
  = JObj (<["footer" := footer Examples.acme]>
          (<["contact" := contact Examples.acme]> (baseConfig Examples.acme))) /\
  Js.get (generateConfigByType Examples.acme) "header" = Ok JUndefined /\
  Js.get (generateConfigByType Examples.acme) "hero" = Ok JUndefined /\
  generateAssetsList (generateConfigByType Examples.acme) = Throw TypeError /\
  exists e, (generateSite "/app/clients/acme.json" Examples.acme_world []).1 = Throw e.
Proof.
  split; [reflexivity|]. split; [reflexivity|].
  apply (build_of_an_unregistered_type_throws
           Examples.acme Examples.acme_world [] "/app/clients/acme.json");
    reflexivity.
Defined.

(** In a world without failures the error that ends the build is that
    [TypeError], raised after [_redirects] and [netlify.toml] are written;
    the registered type [business], whose template has no [sections], ends
    the same way. *)
Lemma unregistered_type_in_a_calm_world :
  (generateSite "/app/clients/acme.json" Examples.acme_world []).1 = Throw TypeError /\
  last (generateSite "/app/clients/acme.json" Examples.acme_world []).2
  = Some (generation_error_line TypeError) /\
  (generateAssetsList <$> synthesize Examples.overridden) = Some (Throw TypeError).
Proof. repeat split; vm_compute; reflexivity. Qed.

End UnregisteredType.

(** * Further properties *)

(** ** Deployment *)

Lemma cons_to_snoc {A} (a t n : list A) (x : A) : a = (t ++ [x]) ++ n -> a = t ++ x :: n.
Proof. intros ->. rewrite <- app_assoc. reflexivity. Qed.

Lemma for_of_app {A} (xs ys : list A) (body : A -> IO unit) (env : Env) (t : trace) :
  Io.for_of (xs ++ ys) body env t
  = match Io.for_of xs body env t with
    | (Ok _, t') => Io.for_of ys body env t'
    | (Throw e, t') => (Throw e, t')
    end.
Proof.
  revert t. induction xs as [|x xs IH]; intros t; [reflexivity|].
  cbn [app Io.for_of]. unfold mbind, IO_bind.
  destruct (body x env t) as [[[]|e] t']; [apply IH | reflexivity].
Qed.

Section MoreDeployment.

Import Log DeploymentManager.

(** X1: the first deployment of a site directory without [.git], when
    every other call succeeds: the repository is opened and initialized and
    the ignore-list written, then the files are staged and committed, in
    that order, and the result is [true]. *)
Theorem first_deployment_sets_the_repository_up
        (env : Env) (t : trace) (siteDir siteName : string) (e0 : error) :
  perform env (t ++ [deployment_line siteName]) (Access (path_join env siteDir ".git"))
  = Throw e0 ->
  (forall t' c, (forall p, c <> Access p) -> perform env t' c = Ok tt) ->
  exists stamp new,
    deployToNetlify siteDir siteName env t
    = (Ok true, t ++ deployment_line siteName :: new) /\
    calls new = [Access (path_join env siteDir ".git");
                 SimpleGit siteDir; GitInit siteDir;
                 WriteFile (path_join env siteDir ".gitignore") gitignoreContent;
                 SimpleGit siteDir; GitAdd siteDir ".";
                 GitCommit siteDir ("Deploy " +:+ siteName +:+ " - " +:+ stamp)].
Proof.
  unfold deployment_line. intros Hprobe Hcalm. io_cases.
  all: try congruence.
  all: try match goal with
           | H : perform _ _ ?c = Throw _ |- _ =>
               rewrite Hcalm in H by (intros ?; discriminate); discriminate H
           end.
  eexists _, _. split; [apply f_equal2; [reflexivity | apply cons_to_snoc; peel]|].
  reflexivity.
Qed.

Lemma first_deployment_sets_the_repository_up_witness :
  perform MoreExamples.unversioned ([] ++ [deployment_line "acme"])
    (Access (path_join MoreExamples.unversioned "/app/output/acme" ".git"))
  = Throw (Failure "ENOENT: no such file or directory") /\
  (forall t' c, (forall p, c <> Access p) -> perform MoreExamples.unversioned t' c = Ok tt) /\
  exists stamp new,
    deployToNetlify "/app/output/acme" "acme" MoreExamples.unversioned []
    = (Ok true, [] ++ deployment_line "acme" :: new) /\
    calls new = [Access (path_join MoreExamples.unversioned "/app/output/acme" ".git");
                 SimpleGit "/app/output/acme"; GitInit "/app/output/acme";
                 WriteFile (path_join MoreExamples.unversioned "/app/output/acme" ".gitignore")
                           gitignoreContent;
                 SimpleGit "/app/output/acme"; GitAdd "/app/output/acme" ".";
                 GitCommit "/app/output/acme" ("Deploy " +:+ "acme" +:+ " - " +:+ stamp)].
Proof.
  assert (Hcalm : forall (t' : trace) c, (forall p, c <> Access p) ->
                    perform MoreExamples.unversioned t' c = Ok tt).
  { intros t' c Hc. destruct c; try reflexivity. now destruct (Hc path). }
  split; [reflexivity|]. split; [exact Hcalm|].
  apply (first_deployment_sets_the_repository_up MoreExamples.unversioned []
           "/app/output/acme" "acme" (Failure "ENOENT: no such file or directory"));
    [reflexivity | exact Hcalm].
Defined.

(** X2: a deployment ends at the first call that fails (the probe for
    [.git] apart): whatever the world answers, [deployToNetlify] makes no
    call after it. *)
Theorem deployment_makes_no_call_after_a_failure
        (env : Env) (t : trace) (siteDir siteName : string) :
  exists ok new,
    deployToNetlify siteDir siteName env t = (Ok ok, t ++ deployment_line siteName :: new) /\
    Bundle.calls_after_failure env (t ++ [deployment_line siteName]) new = [].
Proof.
  unfold deployment_line. io_cases.
  all: eexists _, _; split;
    [apply f_equal2; [reflexivity | apply cons_to_snoc; peel]|]; cbn [app].
  all: cbn [Bundle.calls_after_failure app]; use_answers; reflexivity.
Qed.

Lemma deployEntry_stat_fails (env : Env) (site : string) (t : trace) (e : error) :
  isDirectory env t (path_join env (outputDir env) site) = Throw e ->
  deployEntry site env t = (Throw e, t ++ [Called (Stat (path_join env (outputDir env) site))]).
Proof.
  intros H. unfold deployEntry.
  cbv beta iota zeta delta [Io.ask Io.fs_stat_isDirectory mbind mret IO_bind IO_ret].
  rewrite H. reflexivity.
Qed.

(** X3: [deployAll] does not survive an entry it cannot examine: when
    [stat] fails on an entry, the entries before it are handled as usual,
    the error of [stat] is thrown to the caller, and the entries after it
    are neither examined nor deployed. *)
Theorem deployAll_stops_at_an_entry_it_cannot_examine
        (env : Env) (isDir : string -> bool) (before after : list string) (bad : string)
        (t : trace) (e : error) :
  readdir env t (outputDir env) = Ok (before ++ bad :: after) ->
  (forall t' site, site ∈ before ->
     isDirectory env t' (path_join env (outputDir env) site) = Ok (isDir site)) ->
  (forall t', isDirectory env t' (path_join env (outputDir env) bad) = Throw e) ->
  exists chunks,
    deployAll env t
    = (Throw e,
       t ++ Called (Readdir (outputDir env))
         :: concat chunks ++ [Called (Stat (path_join env (outputDir env) bad))]) /\
    Forall2 (Batch.entry_events env isDir) before chunks.
Proof.
  intros Hdir Hstat Hbad.
  destruct (deploy_loop_runs env isDir before Hstat (t ++ [Called (Readdir (outputDir env))]))
    as (chunks & Hrun & Hall).
  exists chunks. split; [|exact Hall].
  unfold deployAll.
  cbv beta iota zeta delta [Io.ask Io.fs_readdir mbind mret IO_bind IO_ret].
  rewrite Hdir, for_of_app, Hrun. cbn [Io.for_of]. unfold mbind, IO_bind.
  rewrite (deployEntry_stat_fails env bad _ e (Hbad _)).
  rewrite <- !app_assoc. reflexivity.
Qed.

Lemma deployAll_stops_at_an_entry_it_cannot_examine_witness :
  readdir MoreExamples.dangling_link [] (outputDir MoreExamples.dangling_link)
  = Ok (["acme"] ++ "old" :: ["bistro"]) /\
  (forall t' site, site ∈ ["acme"] ->
     isDirectory MoreExamples.dangling_link t'
       (path_join MoreExamples.dangling_link (outputDir MoreExamples.dangling_link) site)
     = Ok true) /\
  (forall t' : trace,
     isDirectory MoreExamples.dangling_link t'
       (path_join MoreExamples.dangling_link (outputDir MoreExamples.dangling_link) "old")
     = Throw (Failure "ENOENT: no such file or directory")) /\
  exists chunks,
    deployAll MoreExamples.dangling_link []
    = (Throw (Failure "ENOENT: no such file or directory"),
       [] ++ Called (Readdir (outputDir MoreExamples.dangling_link))
          :: concat chunks
             ++ [Called (Stat (path_join MoreExamples.dangling_link
                                 (outputDir MoreExamples.dangling_link) "old"))]) /\
    Forall2 (Batch.entry_events MoreExamples.dangling_link (fun _ => true)) ["acme"] chunks.
Proof.
  assert (Hstat : forall (t' : trace) site, site ∈ ["acme"] ->
     isDirectory MoreExamples.dangling_link t'
       (path_join MoreExamples.dangling_link (outputDir MoreExamples.dangling_link) site)
     = Ok true).
  { intros t' site H. apply list_elem_of_singleton in H. subst. reflexivity. }
  split; [reflexivity|]. split; [exact Hstat|]. split; [reflexivity|].
  apply (deployAll_stops_at_an_entry_it_cannot_examine MoreExamples.dangling_link
           (fun _ => true) ["acme"] ["bistro"] "old" []
           (Failure "ENOENT: no such file or directory"));
    [reflexivity | exact Hstat | reflexivity].
Defined.

End MoreDeployment.

(** ** Generation *)

Section MoreGeneration.

Import Log SiteGenerator.

(** X4: a build that returns has read the configuration and the
    template, and made exactly these calls, in this order: the site
    directory [<output>/<client.slug>] is created, the rendered template is
    written as [index.html], the stylesheet copied, [assets] created, and
    [_redirects], [netlify.toml] and [README.md] written; the directory is
    what the build returns. *)
Theorem successful_build_writes_the_bundle
        (env : Env) (t : trace) (configPath d : string) :
  (generateSite configPath env t).1 = Ok d ->
  exists text config slug template html readme new,
    readFile env (t ++ [generation_line configPath]) configPath = Ok text /\
    JSON_parse env text = Ok config /\
    Config.slug config = Ok (JStr slug) /\
    d = path_join env (outputDir env) slug /\
    handlebars env template config = Ok html /\
    readmeContent config = Ok readme /\
    (generateSite configPath env t).2 = t ++ generation_line configPath :: new /\
    calls new
    = [ReadFile configPath;
       MkdirRecursive d;
       ReadFile (path_join env (templatesDir env) "index.html");
       WriteFile (path_join env d "index.html") html;
       CopyFile (path_join env (templatesDir env) "styles.css") (path_join env d "styles.css");
       MkdirRecursive (path_join env d "assets");
       WriteFile (path_join env d "_redirects") redirectsContent;
       WriteFile (path_join env d "netlify.toml") netlifyConfig;
       WriteFile (path_join env d "README.md") readme].
Proof.
  unfold generation_line. io_cases.
  all: try discriminate.
  intros [= <-].
  eexists _, _, _, _, _, _, _.
  repeat (split; [first [eassumption | reflexivity]|]).
  split; [apply cons_to_snoc; peel | reflexivity].
Qed.

Lemma successful_build_writes_the_bundle_witness :
  (generateSite "/app/scripts/../clients/b.json" Examples.first_unreadable []).1
  = Ok "/app/scripts/../output/chez-marie" /\
  exists text config slug template html readme new,
    readFile Examples.first_unreadable
      ([] ++ [generation_line "/app/scripts/../clients/b.json"])
      "/app/scripts/../clients/b.json" = Ok text /\
    JSON_parse Examples.first_unreadable text = Ok config /\
    Config.slug config = Ok (JStr slug) /\
    "/app/scripts/../output/chez-marie"
    = path_join Examples.first_unreadable (outputDir Examples.first_unreadable) slug /\
    handlebars Examples.first_unreadable template config = Ok html /\
    readmeContent config = Ok readme /\
    (generateSite "/app/scripts/../clients/b.json" Examples.first_unreadable []).2
    = [] ++ generation_line "/app/scripts/../clients/b.json" :: new /\
    calls new
    = [ReadFile "/app/scripts/../clients/b.json";
       MkdirRecursive "/app/scripts/../output/chez-marie";
       ReadFile (path_join Examples.first_unreadable
                   (templatesDir Examples.first_unreadable) "index.html");
       WriteFile (path_join Examples.first_unreadable
                    "/app/scripts/../output/chez-marie" "index.html") html;
       CopyFile (path_join Examples.first_unreadable
                   (templatesDir Examples.first_unreadable) "styles.css")
                (path_join Examples.first_unreadable
                   "/app/scripts/../output/chez-marie" "styles.css");
       MkdirRecursive (path_join Examples.first_unreadable
                         "/app/scripts/../output/chez-marie" "assets");
       WriteFile (path_join Examples.first_unreadable
                    "/app/scripts/../output/chez-marie" "_redirects") redirectsContent;
       WriteFile (path_join Examples.first_unreadable
                    "/app/scripts/../output/chez-marie" "netlify.toml") netlifyConfig;
       WriteFile (path_join Examples.first_unreadable
                    "/app/scripts/../output/chez-marie" "README.md") readme].
Proof.
  split; [vm_compute; reflexivity|].
  apply (successful_build_writes_the_bundle Examples.first_unreadable []
           "/app/scripts/../clients/b.json" "/app/scripts/../output/chez-marie").
  vm_compute; reflexivity.
Defined.

(** X5: [generateSite] logs what it rethrows: a build that throws [e] has
    printed one line on [stderr], the last of the run, which carries [e]; a
    build that returns has printed nothing on [stderr]. *)
Theorem generateSite_logs_what_it_rethrows (env : Env) (t : trace) (configPath : string) :
  exists r new,
    generateSite configPath env t = (r, t ++ generation_line configPath :: new) /\
    match r with
    | Ok _ => stderr new = []
    | Throw e =>
        stderr new = [generation_error_line e] /\ last new = Some (generation_error_line e)
    end.
Proof.
  destruct (generateSite_runs env t configPath) as (r & new & Hrun & _ & Hr).
  exists r, new. split; [rewrite Hrun, <- app_assoc; reflexivity|].
  destruct r; [apply Hr | exact Hr].
Qed.

(** X6: a build changes the file system only once the configuration is
    loaded and its [client.slug] is a string, and then only at the site
    directory [<output>/<slug>] and the six entries of the bundle in it,
    whether it returns or throws. *)
Theorem build_stays_in_the_site_directory (env : Env) (t : trace) (configPath : string) :
  exists r new,
    generateSite configPath env t = (r, t ++ generation_line configPath :: new) /\
    (List.filter Bundle.writes (calls new) = []
     \/ exists config slug,
         (loadConfig configPath env (t ++ [generation_line configPath])).1 = Ok config /\
         Config.slug config = Ok (JStr slug) /\
         Forall (Bundle.within env (path_join env (outputDir env) slug)) (calls new)).
Proof.
  unfold generation_line. io_cases.
  all: eexists _, _; split;
    [apply f_equal2; [reflexivity | apply cons_to_snoc; peel]|]; cbn [app].
  all: cbn [calls omap list_omap called List.filter Bundle.writes].
  all: lazymatch goal with
       | |- [] = [] \/ _ => left; reflexivity
       | |- _ => right; eexists _, _; split; [reflexivity|]; split; [eassumption|]
       end.
  all: repeat (apply Forall_cons; split;
               [unfold Bundle.within, Bundle.bundle; cbn [Bundle.target];
                first [exact I | repeat first [apply list_elem_of_here
                                              | apply list_elem_of_further]]|]).
  all: apply Forall_nil; exact I.
Qed.

End MoreGeneration.

(** ** Answers and configurations *)

Section MoreSynthesis.

Import JsString CreateClient.

Lemma trimEnd_empty (s : string) : trimEnd s = "" <-> all isWhiteSpace s = true.
Proof.
  induction s as [|c s IH]; simpl; [tauto|].
  destruct (trimEnd s) eqn:E.
  - destruct (isWhiteSpace c); simpl.
    + tauto.
    + split; discriminate.
  - split; [discriminate|]. intros H. apply andb_true_iff in H as [_ H].
    apply IH in H. discriminate.
Qed.

Lemma trimStart_all (s : string) :
  all isWhiteSpace (trimStart s) = all isWhiteSpace s.
Proof.
  induction s as [|c s IH]; simpl; [reflexivity|].
  destruct (isWhiteSpace c) eqn:E; simpl; [exact IH | now rewrite E].
Qed.

(** X7: the name question accepts a name exactly when it has a
    character that is not white space; for the entries it refuses (the empty
    name, a name of blanks) nothing is synthesized. *)
Theorem blank_names_are_refused (e : entries) :
  (validate (enteredName e) = false <-> all isWhiteSpace (enteredName e) = true) /\
  (synthesize e = None <-> all isWhiteSpace (enteredName e) = true).
Proof.
  assert (H : validate (enteredName e) = false <-> all isWhiteSpace (enteredName e) = true).
  { unfold validate, trim. rewrite negb_false_iff, String.eqb_eq, trimEnd_empty.
    now rewrite trimStart_all. }
  split; [exact H|].
  unfold synthesize, prompt. destruct (validate (enteredName e)); simpl.
  - split; [discriminate|]. intros Hall. apply H in Hall. discriminate.
  - split; [intros _; now apply H | reflexivity].
Qed.

Lemma replaceRuns_fixed (b : bool) (s : string) :
  all (fun c => negb (isWhiteSpace c)) s = true -> replaceRuns b s = s.
Proof.
  revert b. induction s as [|c s IH]; intros b H; simpl in *; [reflexivity|].
  apply andb_true_iff in H as [Hc H]. apply negb_true_iff in Hc.
  rewrite Hc. now rewrite IH.
Qed.

(** X8: the default slug is stable: the slug of a slug is that slug, and
    a name that is lower-case and free of white space is its own slug. *)
Theorem default_slug_is_stable (name : string) :
  defaultSlug (defaultSlug name) = defaultSlug name /\
  (toLowerCase name = name -> all (fun c => negb (isWhiteSpace c)) name = true ->
   defaultSlug name = name).
Proof.
  unfold defaultSlug, replaceWhiteSpace. split.
  - rewrite (replaceRuns_lower false (toLowerCase name)) by apply toLowerCase_idempotent.
    apply replaceRuns_fixed, replaceRuns_no_space.
  - intros Hlow Hfree. rewrite Hlow. now apply replaceRuns_fixed.
Qed.

Lemma base_keys (a : answers) (key : string) (v : value) :
  baseConfig a !! key = Some v -> key = "client" \/ key = "seo" \/ key = "theme".
Proof.
  unfold baseConfig, Js.obj; simpl.
  destruct (decide (key = "theme")) as [->|Ht]; [auto|].
  rewrite lookup_insert_ne by congruence.
  destruct (decide (key = "seo")) as [->|Hs]; [auto|].
  rewrite lookup_insert_ne by congruence.
  destruct (decide (key = "client")) as [->|Hc]; [auto|].
  rewrite lookup_insert_ne by congruence. rewrite lookup_empty. discriminate.
Qed.

Lemma templates_leave_the_base (a : answers) (k : string) (v : value) :
  templates a !! k = Some v ->
  exists o, v = JObj o /\ o !! "client" = None /\ o !! "seo" = None /\ o !! "theme" = None.
Proof.
  unfold templates, Js.obj; simpl.
  destruct (decide (k = "business")) as [->|Hb].
  { rewrite lookup_insert_eq. intros [= <-]. eexists. split; [reflexivity|].
    repeat split; vm_compute; reflexivity. }
  rewrite lookup_insert_ne by congruence.
  destruct (decide (k = "restaurant")) as [->|Hr].
  { rewrite lookup_insert_eq. intros [= <-]. eexists. split; [reflexivity|].
    repeat split; vm_compute; reflexivity. }
  rewrite lookup_insert_ne by congruence. rewrite lookup_empty. discriminate.
Qed.

(** X9: the base skeleton survives the merge: for every answer set and
    every site type, registered or not, each field of [baseConfig]
    ([client], [seo], [theme]) is in the configuration with the value the
    base gives it. *)
Theorem base_skeleton_survives_the_merge (a : answers) (key : string) (v : value) :
  baseConfig a !! key = Some v -> Js.get (generateConfigByType a) key = Ok v.
Proof.
  intros Hbase. pose proof (base_keys a key v Hbase) as Hkey.
  unfold generateConfigByType, assemble, Js.get. f_equal.
  rewrite !lookup_insert_ne by (destruct Hkey as [->|[->| ->]]; discriminate).
  unfold template_of. destruct (templates a !! _) as [tpl|] eqn:E; simpl.
  - apply templates_leave_the_base in E as (o & -> & Hc & Hs & Ht). simpl.
    rewrite lookup_union_r; [now rewrite Hbase|].
    destruct Hkey as [->|[->| ->]]; assumption.
  - now rewrite Hbase.
Qed.

Lemma base_skeleton_survives_the_merge_witness :
  baseConfig Examples.acme !! "theme"
  = Some (object [("primaryColor", JUndefined); ("secondaryColor", JUndefined);
                  ("accentColor", str "#e74c3c"); ("backgroundColor", str "#ffffff");
                  ("textColor", str "#333333"); ("fontFamily", str "'Inter', sans-serif");
                  ("borderRadius", str "8px")]) /\
  Js.get (generateConfigByType Examples.acme) "theme"
  = Ok (object [("primaryColor", JUndefined); ("secondaryColor", JUndefined);
                ("accentColor", str "#e74c3c"); ("backgroundColor", str "#ffffff");
                ("textColor", str "#333333"); ("fontFamily", str "'Inter', sans-serif");
                ("borderRadius", str "8px")]).
Proof.
  split; [reflexivity|].
  apply (base_skeleton_survives_the_merge Examples.acme "theme"). reflexivity.
Defined.

(** X10: what the registered templates give the builder: whatever the
    other answers, for the type [restaurant] the asset list is the logo, the
    hero background and the image of the one section; for the type
    [business], whose template has no [sections], the asset list is a
    [TypeError]. *)
Theorem assets_of_the_registered_types
        (name slug title description primary secondary : option string) :
  SiteGenerator.generateAssetsList
    (generateConfigByType
       {| clientName := name; clientSlug := slug; title := title;
          description := description; primaryColor := primary;
          secondaryColor := secondary; siteType_ := Some "restaurant" |})
  = Ok (join nl ["- /assets/logo.png"; "- /assets/hero-bg.jpg"; "- /assets/about.jpg"]) /\
  SiteGenerator.generateAssetsList
    (generateConfigByType
       {| clientName := name; clientSlug := slug; title := title;
          description := description; primaryColor := primary;
          secondaryColor := secondary; siteType_ := Some "business" |})
  = Throw TypeError.
Proof. split; vm_compute; reflexivity. Qed.

End MoreSynthesis.

(** ** The asset collection, continued *)

Section MoreAssets.

Import SiteGenerator Assets.

Lemma get_present (v : value) (key : string) (x : value) :
  Js.get v key = Ok x -> present v = true.
Proof. destruct v; simpl; try discriminate; reflexivity. Qed.

Lemma get_throws_TypeError (v : value) (key : string) (e : error) :
  Js.get v key = Throw e -> e = TypeError.
Proof. destruct v; simpl; try discriminate; now intros [= <-]. Qed.

Lemma forEach_target_inv (v : value) (xs : list value) :
  forEach_target v = Ok xs -> v = JArr xs.
Proof. destruct v; simpl; try discriminate. now intros [= <-]. Qed.

Lemma forEach_target_throws (v : value) (e : error) :
  forEach_target v = Throw e -> e = TypeError.
Proof. destruct v; simpl; try discriminate; now intros [= <-]. Qed.

Lemma forEach_throws {S} (step : S -> value -> result S) (xs : list value) (s : S) (e : error) :
  (forall s x e, step s x = Throw e -> e = TypeError) ->
  forEach step s xs = Throw e -> e = TypeError.
Proof.
  intros Hstep. revert s. induction xs as [|x xs IH]; simpl; intros s H; [discriminate|].
  destruct (step s x) as [s1|e1] eqn:E; simpl in H.
  - eauto.
  - injection H as <-. eauto.
Qed.

Lemma scanItem_throws (l : list value) (item : value) (e : error) :
  scanItem l item = Throw e -> e = TypeError.
Proof.
  unfold scanItem. destruct (Js.get item "image") eqn:E; simpl; [discriminate|].
  intros [= <-]. eapply get_throws_TypeError, E.
Qed.

Lemma scanSection_throws (l : list value) (section : value) (e : error) :
  scanSection l section = Throw e -> e = TypeError.
Proof.
  unfold scanSection.
  destruct (Js.get section "image") eqn:Ei; simpl;
    [|intros [= <-]; eapply get_throws_TypeError, Ei].
  destruct (Js.get section "items") as [items|] eqn:Et; simpl;
    [|intros [= <-]; eapply get_throws_TypeError, Et].
  destruct (Js.truthy items); [|discriminate].
  destruct (forEach_target items) eqn:Ef; simpl;
    [|intros [= <-]; eapply forEach_target_throws, Ef].
  apply forEach_throws. apply scanItem_throws.
Qed.

Lemma scanItems_scannable (items l l' : list value) :
  forEach scanItem l items = Ok l' -> forallb present items = true.
Proof.
  revert l. induction items as [|x items IH]; intros l H; [reflexivity|].
  cbn [forEach] in H. destruct (scanItem l x) as [l1|] eqn:E; simpl in H; [|discriminate].
  cbn [forallb]. rewrite (IH _ H), andb_true_r.
  unfold scanItem in E. destruct (Js.get x "image") eqn:Ex; [|discriminate].
  eapply get_present, Ex.
Qed.

Lemma scanSection_scannable (section : value) (l l' : list value) :
  scanSection l section = Ok l' -> section_scannable section = true.
Proof.
  unfold scanSection, section_scannable, items_scannable.
  destruct (Js.get section "image"); simpl; [|discriminate].
  destruct (Js.get section "items") as [items|]; simpl; [|discriminate].
  destruct (Js.truthy items); [|reflexivity].
  destruct (forEach_target items) as [xs|] eqn:E; simpl; [|discriminate].
  apply forEach_target_inv in E. subst items. apply scanItems_scannable.
Qed.

Lemma scanSections_scannable (sections l l' : list value) :
  forEach scanSection l sections = Ok l' -> forallb section_scannable sections = true.
Proof.
  revert l. induction sections as [|x sections IH]; intros l H; [reflexivity|].
  cbn [forEach] in H. destruct (scanSection l x) as [l1|] eqn:E; simpl in H; [|discriminate].
  cbn [forallb]. now rewrite (scanSection_scannable _ _ _ E), (IH _ H).
Qed.

Lemma collectAssets_returns_scannable (config : value) (assets : list value) :
  collectAssets config = Ok assets -> scannable config = true.
Proof.
  intros H. unfold collectAssets in H. unfold scannable, has.
  destruct (Js.get config "header") as [header|]; simpl in H; [|discriminate].
  destruct (Js.get header "logo") as [logo|] eqn:El; simpl in H; [|discriminate].
  rewrite (get_present _ _ _ El).
  destruct (Js.get config "hero") as [hero|]; simpl in H; [|discriminate].
  destruct (Js.get hero "backgroundImage") as [bg|] eqn:Eb; simpl in H; [|discriminate].
  rewrite (get_present _ _ _ Eb).
  destruct (Js.get config "sections") as [sections|]; simpl in H; [|discriminate].
  destruct (forEach_target sections) as [xs|] eqn:Es; simpl in H; [|discriminate].
  apply forEach_target_inv in Es. subst sections.
  simpl. eapply scanSections_scannable, H.
Qed.

(** X11: when the asset scan fails.  It returns exactly on the
    configurations where [header] and [hero] are present, [sections] is an
    array and every section can be read and has, as [items], an array of
    readable items or something falsy; on every other configuration it
    throws, and what it throws is a [TypeError]. *)
Theorem asset_scan_returns_iff_scannable (config : value) :
  ((exists assets, collectAssets config = Ok assets) <-> scannable config = true) /\
  (forall e, collectAssets config = Throw e -> e = TypeError).
Proof.
  split; [split|].
  - intros [assets H]. eapply collectAssets_returns_scannable, H.
  - intros H. destruct (collectAssets_scannable config H)
      as (_ & _ & _ & _ & _ & assets & _ & _ & _ & _ & _ & _ & E). eauto.
  - intros e. unfold collectAssets.
    destruct (Js.get config "header") as [header|] eqn:E1; simpl;
      [|intros [= <-]; eapply get_throws_TypeError, E1].
    destruct (Js.get header "logo") as [logo|] eqn:E2; simpl;
      [|intros [= <-]; eapply get_throws_TypeError, E2].
    destruct (Js.get config "hero") as [hero|] eqn:E3; simpl;
      [|intros [= <-]; eapply get_throws_TypeError, E3].
    destruct (Js.get hero "backgroundImage") as [bg|] eqn:E4; simpl;
      [|intros [= <-]; eapply get_throws_TypeError, E4].
    destruct (Js.get config "sections") as [sections|] eqn:E5; simpl;
      [|intros [= <-]; eapply get_throws_TypeError, E5].
    destruct (forEach_target sections) as [xs|] eqn:E6; simpl;
      [|intros [= <-]; eapply forEach_target_throws, E6].
    apply forEach_throws. apply scanSection_throws.
Qed.

Lemma add_if_truthy_member (l : list value) (x v : value) :
  v ∈ add_if_truthy l x -> v ∈ l \/ (v = x /\ Js.truthy x = true).
Proof.
  unfold add_if_truthy, Set_add. destruct (Js.truthy x); [|auto].
  destruct (existsb _ l); [auto|].
  intros H. apply elem_of_app in H as [H|H]; [auto|].
  apply list_elem_of_singleton in H. auto.
Qed.

Lemma forEach_preserves_in {S} (P : S -> Prop) (step : S -> value -> result S)
      (xs : list value) (s s' : S) :
  (forall s x s', x ∈ xs -> P s -> step s x = Ok s' -> P s') ->
  P s -> forEach step s xs = Ok s' -> P s'.
Proof.
  revert s. induction xs as [|x xs IH]; simpl; intros s Hstep Hs H.
  - now injection H as <-.
  - destruct (step s x) as [s1|] eqn:E; simpl in H; [|discriminate].
    eapply (IH s1); [|eapply Hstep; [left|exact Hs|exact E]|exact H].
    intros s2 y s3 Hy. apply Hstep. now right.
Qed.

(** X12: the collection holds nothing but what the configuration
    declares: every value collected is truthy and stands at one of the
    scanned places ([header.logo], [hero.backgroundImage],
    [sections[i].image] or [sections[i].items[j].image]). *)
Theorem collected_assets_are_declared (config : value) (assets : list value) :
  collectAssets config = Ok assets ->
  forall v, v ∈ assets -> Js.truthy v = true /\ Bundle.scanned config v.
Proof.
  intros H. unfold collectAssets in H.
  destruct (Js.get config "header") as [header|] eqn:Eh; simpl in H; [|discriminate].
  destruct (Js.get header "logo") as [logo|] eqn:El; simpl in H; [|discriminate].
  destruct (Js.get config "hero") as [hero|] eqn:Er; simpl in H; [|discriminate].
  destruct (Js.get hero "backgroundImage") as [bg|] eqn:Eb; simpl in H; [|discriminate].
  destruct (Js.get config "sections") as [sections|] eqn:Es; simpl in H; [|discriminate].
  destruct (forEach_target sections) as [xs|] eqn:Ex; simpl in H; [|discriminate].
  apply forEach_target_inv in Ex. subst sections.
  set (P := fun l : list value =>
              forall v, v ∈ l -> Js.truthy v = true /\ Bundle.scanned config v).
  change (P assets).
  eapply (forEach_preserves_in P); [| |exact H].
  - intros l section l' Hsec Hl Hscan.
    apply list_elem_of_lookup in Hsec as [i Hi].
    unfold scanSection in Hscan.
    destruct (Js.get section "image") as [image|] eqn:Ei; simpl in Hscan; [|discriminate].
    destruct (Js.get section "items") as [items|] eqn:Et; simpl in Hscan; [|discriminate].
    assert (Himage : P (add_if_truthy l image)).
    { intros v Hv. apply add_if_truthy_member in Hv as [Hv|[-> Hv]]; [now apply Hl|].
      split; [exact Hv|]. right. right. exists xs, i, section. auto. }
    destruct (Js.truthy items); [|now injection Hscan as <-].
    destruct (forEach_target items) as [ys|] eqn:Ey; simpl in Hscan; [|discriminate].
    apply forEach_target_inv in Ey. subst items.
    eapply (forEach_preserves_in P); [|exact Himage|exact Hscan].
    intros l1 item l2 Hitem Hl1 Hstep.
    apply list_elem_of_lookup in Hitem as [j Hj].
    unfold scanItem in Hstep.
    destruct (Js.get item "image") as [img|] eqn:Eimg; simpl in Hstep; [|discriminate].
    injection Hstep as <-.
    intros v Hv. apply add_if_truthy_member in Hv as [Hv|[-> Hv]]; [now apply Hl1|].
    split; [exact Hv|]. right. right. exists xs, i, section.
    repeat split; [exact Es|exact Hi|]. right. exists ys, j, item. auto.
  - intros v Hv. apply add_if_truthy_member in Hv as [Hv|[-> Hv]].
    + apply add_if_truthy_member in Hv as [Hv|[-> Hv]]; [inversion Hv|].
      split; [exact Hv|]. left. unfold Config.at2. rewrite Eh. exact El.
    + split; [exact Hv|]. right. left. unfold Config.at2. rewrite Er. exact Eb.
Qed.

Lemma collected_assets_are_declared_witness :
  collectAssets Examples.hero_thrice = Ok [JStr "/assets/hero.jpg"] /\
  forall v, v ∈ [JStr "/assets/hero.jpg"] ->
    Js.truthy v = true /\ Bundle.scanned Examples.hero_thrice v.
Proof.
  split; [reflexivity|].
  apply (collected_assets_are_declared Examples.hero_thrice [JStr "/assets/hero.jpg"]).
  reflexivity.
Defined.

Lemma lines_of_paths (paths : list string) :
  mapM assetLine (JStr <$> paths) = Ok ((fun p => "- " +:+ p) <$> paths).
Proof.
  induction paths as [|p paths IH]; [reflexivity|].
  cbn [fmap list_fmap mapM]. cbn [fmap list_fmap] in IH. rewrite IH. reflexivity.
Qed.

(** The list printed in [README.md]: when the values collected are
    the paths [paths] (strings), [generateAssetsList] returns one line
    [- <path>] for each, in the order of collection, joined by line feeds;
    for no path at all, the empty text. *)
Theorem asset_list_has_a_line_for_each_path (config : value) (paths : list string) :
  collectAssets config = Ok (JStr <$> paths) ->
  generateAssetsList config = Ok (JsString.join JsString.nl ((fun p => "- " +:+ p) <$> paths)).
Proof.
  intros H. unfold generateAssetsList. rewrite H. simpl.
  rewrite lines_of_paths. reflexivity.
Qed.

Lemma asset_list_has_a_line_for_each_path_witness :
  collectAssets Examples.hero_thrice = Ok (JStr <$> ["/assets/hero.jpg"]) /\
  generateAssetsList Examples.hero_thrice
  = Ok (JsString.join JsString.nl ((fun p => "- " +:+ p) <$> ["/assets/hero.jpg"])).
Proof.
  split; [reflexivity|].
  apply (asset_list_has_a_line_for_each_path Examples.hero_thrice ["/assets/hero.jpg"]).
  reflexivity.
Defined.

End MoreAssets.

(** ** The client file and the dev server *)

Section MoreServer.

Import Log SiteGenerator CreateClient.

(** X13: the dev server's listing of sites answers every request and
    never throws: it makes one call, the listing of the output directory,
    and answers with its entries but [.DS_Store], in order (plain files
    too: no entry is examined), or with the error when the listing fails. *)
Theorem site_listing_always_answers (env : Env) (t : trace) :
  exists r,
    DevServer.apiSites env t
    = (Ok r, t ++ [Called (Readdir (path_join env (dirname env) "../output"))]) /\
    match readdir env t (path_join env (dirname env) "../output") with
    | Ok sites =>
        exists names, r = DevServer.Sites names /\
          (".DS_Store" ∉ names) /\
          (forall site, site ∈ names <-> site ∈ sites /\ site <> ".DS_Store") /\
          (names `sublist_of` sites)
    | Throw e => r = DevServer.ServerError e
    end.
Proof.
  unfold DevServer.apiSites.
  cbv beta iota zeta delta [Io.try_catch Io.ask Io.fs_readdir mbind mret IO_bind IO_ret].
  destruct (readdir env t _) as [sites|e]; eexists; (split; [reflexivity|]);
    [|reflexivity].
  eexists. split; [reflexivity|]. split; [|split].
  - intros H. apply list_elem_of_filter in H as [H _]. now apply H.
  - intros site. rewrite list_elem_of_filter. tauto.
  - apply sublist_filter.
Qed.

(** X14: a change of a configuration file rebuilds that file and nothing
    else, and the handler never throws: a rebuild that fails with [e] is
    reported on [stderr] by [generateSite] and by the handler, in that
    order; one that succeeds ends with the line of success and leaves
    [stderr] empty. *)
Theorem change_handler_never_throws (env : Env) (t : trace) (filePath : string) :
  exists new,
    DevServer.onChange filePath env t
    = (Ok tt, t ++ Watch.change_line filePath :: generation_line filePath :: new) /\
    generations new = [] /\
    match (generateSite filePath env (t ++ [Watch.change_line filePath])).1 with
    | Ok _ => stderr new = [] /\ last new = Some Watch.regenerated_line
    | Throw e =>
        stderr new = [generation_error_line e; Watch.regeneration_error_line e] /\
        last new = Some (Watch.regeneration_error_line e)
    end.
Proof.
  destruct (generateSite_runs env (t ++ [Watch.change_line filePath]) filePath)
    as (r & new & Hrun & Hnone & Hr).
  unfold DevServer.onChange.
  cbv beta iota zeta delta
    [Io.try_catch Io.console_log Io.console_error mbind mret IO_bind IO_ret].
  fold (Watch.change_line filePath). rewrite Hrun. cbn [fst].
  destruct r as [d|e].
  - destruct Hr as [Hs _]. eexists. split; [now rewrite <- !app_assoc|].
    rewrite generations_app, stderr_app, Hnone, Hs, last_snoc. repeat split.
  - destruct Hr as [Hs Hlast]. eexists. split; [now rewrite <- !app_assoc|].
    rewrite generations_app, stderr_app, Hnone, Hs, last_snoc. repeat split.
Qed.

Lemma createClientConfig_runs
      (stringify : value -> string) (a : answers) (env : Env) (t : trace) :
  exists r,
    NewClient.createClientConfig stringify a env t
    = (r, (t ++ [Watch.greeting_line;
                 Called (WriteFile
                           (path_join env (clientsDir env)
                                      (interpolate (clientSlug a) +:+ ".json"))
                           (stringify (generateConfigByType a)))])
          ++ match r with
             | Ok p => [Console Stdout
                          [Chalk Green [Glyph 0x2705;
                                        Text (JsString.latin1 " Configuration créée: ");
                                        Text p]]]
             | Throw _ => []
             end) /\
    match r with
    | Ok p => p = path_join env (clientsDir env) (interpolate (clientSlug a) +:+ ".json")
    | Throw e =>
        exists t', perform env t'
                     (WriteFile
                        (path_join env (clientsDir env)
                                   (interpolate (clientSlug a) +:+ ".json"))
                        (stringify (generateConfigByType a))) = Throw e
    end.
Proof.
  unfold NewClient.createClientConfig, clientsDir.
  cbv beta iota zeta delta [Io.ask Io.do Io.console_log mbind mret IO_bind IO_ret].
  destruct (perform env _ _) as [[]|e] eqn:E.
  - eexists (Ok _). split; [|reflexivity]. rewrite <- !app_assoc. reflexivity.
  - eexists (Throw e). split; [|eauto]. rewrite <- !app_assoc. reflexivity.
Qed.

(** X15: the file of a new client is named after its slug: for the
    answers of an accepted entry, [createClientConfig] makes one call, the
    writing of the synthesized configuration to
    [<clients>/<client.slug>.json], the slug being the one in the
    configuration; it returns that path when the writing succeeds and throws
    the error of the writing otherwise. *)
Theorem client_file_is_named_after_the_slug
        (stringify : value -> string) (e : entries) (a : answers) (env : Env) (t : trace) :
  prompt e = Some a ->
  exists slug new,
    Config.slug (generateConfigByType a) = Ok (JStr slug) /\
    (NewClient.createClientConfig stringify a env t).2 = t ++ new /\
    calls new
    = [WriteFile (path_join env (clientsDir env) (slug +:+ ".json"))
                 (stringify (generateConfigByType a))] /\
    match (NewClient.createClientConfig stringify a env t).1 with
    | Ok p => p = path_join env (clientsDir env) (slug +:+ ".json")
    | Throw err =>
        exists t', perform env t'
                     (WriteFile (path_join env (clientsDir env) (slug +:+ ".json"))
                                (stringify (generateConfigByType a))) = Throw err
    end.
Proof.
  intros Hprompt.
  assert (Hslug : exists slug, clientSlug a = Some slug).
  { unfold prompt in Hprompt. destruct (validate _); [|discriminate].
    injection Hprompt as <-. simpl. eauto. }
  destruct Hslug as [slug Hslug].
  destruct (createClientConfig_runs stringify a env t) as (r & Hrun & Hr).
  rewrite Hslug in *. cbn [interpolate] in *.
  exists slug. eexists. split; [rewrite slug_of_config, Hslug; reflexivity|].
  rewrite Hrun. cbn [fst snd]. split; [rewrite <- app_assoc; reflexivity|].
  split; [|exact Hr].
  rewrite calls_app. destruct r; reflexivity.
Qed.

Lemma client_file_is_named_after_the_slug_witness :
  prompt Examples.marie = Some (default Examples.acme (prompt Examples.marie)) /\
  exists slug new,
    Config.slug (generateConfigByType (default Examples.acme (prompt Examples.marie)))
    = Ok (JStr slug) /\
    (NewClient.createClientConfig MoreExamples.some_text
       (default Examples.acme (prompt Examples.marie)) Examples.calm []).2 = [] ++ new /\
    calls new
    = [WriteFile (path_join Examples.calm (clientsDir Examples.calm) (slug +:+ ".json"))
                 (MoreExamples.some_text
                    (generateConfigByType (default Examples.acme (prompt Examples.marie))))] /\
    match (NewClient.createClientConfig MoreExamples.some_text
             (default Examples.acme (prompt Examples.marie)) Examples.calm []).1 with
    | Ok p => p = path_join Examples.calm (clientsDir Examples.calm) (slug +:+ ".json")
    | Throw err =>
        exists t', perform Examples.calm t'
                     (WriteFile
                        (path_join Examples.calm (clientsDir Examples.calm) (slug +:+ ".json"))
                        (MoreExamples.some_text
                           (generateConfigByType
                              (default Examples.acme (prompt Examples.marie))))) = Throw err
    end.
Proof.
  split; [reflexivity|].
  apply (client_file_is_named_after_the_slug MoreExamples.some_text Examples.marie
           (default Examples.acme (prompt Examples.marie)) Examples.calm []).
  reflexivity.
Defined.

Lemma readme_of_unbuildable (e : entries) (a : answers) :
  prompt e = Some a -> chosenType e <> Restaurant ->
  readmeContent (generateConfigByType a) = Throw TypeError.
Proof.
  intros Hprompt Htype. unfold prompt in Hprompt.
  destruct (validate _); [|discriminate]. injection Hprompt as <-.
  destruct e as [name slug title description primary secondary []];
    cbn [chosenType] in Htype; try contradiction; vm_compute; reflexivity.
Qed.

(** X16: [new-client] fails for four of the five site types it offers:
    for an accepted entry of any type but [restaurant], the configuration is
    written (when the writing succeeds) and the build that follows, reading
    that configuration back, throws. *)
Theorem new_client_builds_only_restaurants
        (stringify : value -> string) (e : entries) (a : answers) (env : Env) (t : trace) :
  prompt e = Some a ->
  chosenType e <> Restaurant ->
  (forall t' p, (loadConfig p env t').1 = Ok (generateConfigByType a)) ->
  exists err, (NewClient.newClient stringify a env t).1 = Throw err.
Proof.
  intros Hprompt Htype Hread. unfold NewClient.newClient.
  unfold mbind at 1. unfold IO_bind.
  destruct (NewClient.createClientConfig stringify a env t) as [[p|err] t1]; [|eauto].
  destruct (generateSite_runs env t1 p) as (r & new & Hrun & _ & Hr).
  rewrite Hrun. destruct r as [d|err]; [|eauto].
  destruct Hr as (_ & config & content & Hconfig & Hcontent).
  rewrite Hread in Hconfig. injection Hconfig as <-.
  rewrite (readme_of_unbuildable e a Hprompt Htype) in Hcontent. discriminate.
Qed.

Lemma new_client_builds_only_restaurants_witness :
  prompt Examples.overridden = Some (default Examples.acme (prompt Examples.overridden)) /\
  chosenType Examples.overridden <> Restaurant /\
  (forall t' p,
     (loadConfig p MoreExamples.business_world t').1
     = Ok (generateConfigByType (default Examples.acme (prompt Examples.overridden)))) /\
  exists err,
    (NewClient.newClient MoreExamples.some_text
       (default Examples.acme (prompt Examples.overridden))
       MoreExamples.business_world []).1 = Throw err.
Proof.
  assert (Hread : forall (t' : trace) p,
     (loadConfig p MoreExamples.business_world t').1
     = Ok (generateConfigByType (default Examples.acme (prompt Examples.overridden))))
    by reflexivity.
  split; [reflexivity|]. split; [discriminate|]. split; [exact Hread|].
  apply (new_client_builds_only_restaurants MoreExamples.some_text Examples.overridden
           (default Examples.acme (prompt Examples.overridden))
           MoreExamples.business_world []);
    [reflexivity | discriminate | exact Hread].
Defined.

End MoreServer.

(** ** What is left alone *)

Section LeftAlone.

Import JsString Log SiteGenerator.

(** X17: a deployment acts on its own site directory only: every call
    [deployToNetlify] makes, whether it ends well or not, is a git call on
    [siteDir], the probe for [siteDir/.git] or the writing of
    [siteDir/.gitignore]. *)
Theorem deployment_concerns_its_directory_only
        (env : Env) (t : trace) (siteDir siteName : string) :
  exists ok new,
    DeploymentManager.deployToNetlify siteDir siteName env t
    = (Ok ok, t ++ deployment_line siteName :: new) /\
    Forall (Bundle.concerns env siteDir) (calls new).
Proof.
  unfold deployment_line. io_cases.
  all: eexists _, _; split;
    [apply f_equal2; [reflexivity | apply cons_to_snoc; peel]|]; cbn [app].
  all: cbn [calls omap list_omap called].
  all: repeat (apply Forall_cons; split; [reflexivity|]).
  all: apply Forall_nil; exact I.
Qed.

Lemma substring_whole (s : string) : String.substring 0 (String.length s) s = s.
Proof. induction s as [|c s IH]; simpl; [reflexivity | now rewrite IH]. Qed.

Lemma substring_split (s : string) (m : nat) :
  (m <= String.length s)%nat ->
  s = String.substring 0 m s +:+ String.substring m (String.length s - m) s.
Proof.
  revert m. induction s as [|c s IH]; intros m Hm.
  - destruct m; reflexivity.
  - destruct m as [|m]; simpl.
    + now rewrite substring_whole.
    + simpl in Hm.
      change (String c s
              = String c (String.substring 0 m s
                          +:+ String.substring m (String.length s - m) s)).
      f_equal. apply IH. lia.
Qed.

Lemma substring_suffix (p suffix : string) :
  String.substring (String.length p) (String.length suffix) (p +:+ suffix) = suffix.
Proof. induction p as [|c p IH]; simpl; [apply substring_whole | exact IH]. Qed.

Lemma append_length (a b : string) :
  String.length (a +:+ b) = (String.length a + String.length b)%nat.
Proof. induction a as [|c a IH]; simpl; [reflexivity | now rewrite IH]. Qed.

Lemma endsWith_spec (suffix s : string) :
  endsWith suffix s = true <-> exists stem, s = stem +:+ suffix.
Proof.
  unfold endsWith. split.
  - intros H. apply andb_true_iff in H as [Hk H].
    apply Nat.leb_le in Hk. apply String.eqb_eq in H.
    exists (String.substring 0 (String.length s - String.length suffix) s).
    pose proof (substring_split s (String.length s - String.length suffix)) as Hs.
    replace (String.length s - (String.length s - String.length suffix))%nat
      with (String.length suffix) in Hs by lia.
    rewrite H in Hs. apply Hs. lia.
  - intros [stem ->]. rewrite append_length.
    apply andb_true_iff. split; [apply Nat.leb_le; lia|].
    replace (String.length stem + String.length suffix - String.length suffix)%nat
      with (String.length stem) by lia.
    rewrite substring_suffix. apply String.eqb_refl.
Qed.

(** X18: a batch reads JSON files only: whatever the world answers, the
    configurations [generateAllSites] attempts are, in the order of the
    listing and each once, the first so many of the listed files whose name
    ends in [.json]; a file of another name is never attempted. *)
Theorem batch_attempts_json_files_only (env : Env) (t : trace) (configFiles : list string) :
  readdir env t (clientsDir env) = Ok configFiles ->
  exists attempted,
    generations (generateAllSites env t).2
    = generations t ++ Batch.config_paths env attempted /\
    attempted `prefix_of` jsonFiles configFiles /\
    (forall file, file ∈ attempted ->
       file ∈ configFiles /\ exists stem, file = stem +:+ ".json").
Proof.
  intros Hdir. unfold generateAllSites.
  cbv beta iota zeta delta
    [Io.try_catch Io.ask Io.fs_readdir Io.console_log Io.console_error
     mbind mret IO_bind IO_ret].
  rewrite Hdir.
  destruct (generate_loop_runs env (jsonFiles configFiles)
              ((t ++ [Called (Readdir (clientsDir env))])
               ++ [Console Stdout
                     [Plain [Glyph 128260; Text (latin1 " Génération de ");
                             Text (ofN (N.of_nat (length (jsonFiles configFiles))));
                             Text " sites..."]]]))
    as (r & new & Hrun & Hr).
  rewrite Hrun.
  assert (Hjson : forall attempted file,
            attempted `prefix_of` jsonFiles configFiles -> file ∈ attempted ->
            file ∈ configFiles /\ exists stem, file = stem +:+ ".json").
  { intros attempted file [rest Hrest] Hin.
    assert (Hfile : file ∈ jsonFiles configFiles)
      by (rewrite Hrest; apply elem_of_app; auto).
    unfold jsonFiles in Hfile. apply list_elem_of_filter in Hfile as [Hends Hfile].
    split; [exact Hfile | now apply endsWith_spec]. }
  destruct r as [[]|e].
  - destruct Hr as [Hg _]. exists (jsonFiles configFiles). cbn [snd].
    split; [|split; [reflexivity | intros file; now apply Hjson]].
    rewrite !generations_app, Hg. cbn. rewrite !app_nil_r. reflexivity.
  - destruct Hr as (before & bad & after & t_bad & Hsplit & Hg & _).
    exists (before ++ [bad]). cbn [snd].
    assert (Hprefix : (before ++ [bad]) `prefix_of` jsonFiles configFiles)
      by (exists after; rewrite Hsplit, <- app_assoc; reflexivity).
    split; [|split; [exact Hprefix | intros file; now apply Hjson]].
    rewrite !generations_app, Hg. cbn. rewrite !app_nil_r. reflexivity.
Qed.

Lemma batch_attempts_json_files_only_witness :
  readdir Examples.first_unreadable [] (clientsDir Examples.first_unreadable)
  = Ok ["a.json"; "b.json"] /\
  exists attempted,
    generations (generateAllSites Examples.first_unreadable []).2
    = generations [] ++ Batch.config_paths Examples.first_unreadable attempted /\
    attempted `prefix_of` jsonFiles ["a.json"; "b.json"] /\
    (forall file, file ∈ attempted ->
       file ∈ ["a.json"; "b.json"] /\ exists stem, file = stem +:+ ".json").
Proof.
  split; [reflexivity|].
  apply (batch_attempts_json_files_only Examples.first_unreadable [] ["a.json"; "b.json"]).
  reflexivity.
Defined.

Lemma bind_Ok {A B} (m : result A) (f : A -> result B) (b : B) :
  m ≫= f = Ok b -> exists a, m = Ok a /\ f a = Ok b.
Proof. destruct m as [a|]; [eauto | discriminate]. Qed.

Lemma interpolate2_present (config : value) (a b : string) (s : string) :
  interpolate2 config a b = Ok s -> Assets.has config a = true.
Proof.
  unfold interpolate2, Assets.has.
  destruct (Js.get config a) as [x|]; simpl; [|discriminate].
  destruct (Js.get x b) eqn:E; simpl; [|discriminate].
  intros _. eapply get_present, E.
Qed.

(** X19: what a build needs of the configuration: the text of
    [README.md] can only be composed, and so a build can only return, when
    the configuration has [client], [theme] and [contact] and the asset scan
    can walk it ([header], [hero], [sections] as an array, ...). *)
Theorem readme_needs_the_whole_configuration (config : value) (readme : string) :
  readmeContent config = Ok readme ->
  Assets.has config "client" = true /\ Assets.has config "theme" = true /\
  Assets.has config "contact" = true /\ Assets.scannable config = true.
Proof.
  unfold readmeContent. intros H.
  apply bind_Ok in H as (name & E1 & H).
  apply bind_Ok in H as (assetsList & E2 & H).
  apply bind_Ok in H as (name' & _ & H).
  apply bind_Ok in H as (slug & _ & H).
  apply bind_Ok in H as (color & E3 & H).
  apply bind_Ok in H as (email & E4 & _).
  repeat split; try (eapply interpolate2_present; eassumption).
  unfold generateAssetsList in E2.
  apply bind_Ok in E2 as (assets & E & _).
  eapply collectAssets_returns_scannable, E.
Qed.

Lemma readme_needs_the_whole_configuration_witness :
  readmeContent (default JNull (CreateClient.synthesize Examples.marie))
  = Ok (default "" (match readmeContent (default JNull (CreateClient.synthesize Examples.marie))
                    with Ok s => Some s | Throw _ => None end)) /\
  Assets.has (default JNull (CreateClient.synthesize Examples.marie)) "client" = true /\
  Assets.has (default JNull (CreateClient.synthesize Examples.marie)) "theme" = true /\
  Assets.has (default JNull (CreateClient.synthesize Examples.marie)) "contact" = true /\
  Assets.scannable (default JNull (CreateClient.synthesize Examples.marie)) = true.
Proof.
  split; [vm_compute; reflexivity|].
  apply (readme_needs_the_whole_configuration
           (default JNull (CreateClient.synthesize Examples.marie))
           (default "" (match readmeContent
                                (default JNull (CreateClient.synthesize Examples.marie))
                        with Ok s => Some s | Throw _ => None end))).
  vm_compute; reflexivity.
Defined.

End LeftAlone.
